(** * browser_automation.py: the task runner, embedded and verified

    The script [electron/python-env/browser_automation_*.py] reads one JSON
    configuration from [sys.argv[1]], builds a language-model client and a
    browser session from the [browser_use] package, runs one agent and prints
    one JSON record.  This file embeds the script line by line in a small
    state-and-exception monad and proves what it prints, what it calls and
    how the process ends. *)

From Stdlib Require Import ZArith List String Ascii Bool Floats DecimalString Lia.
Import ListNotations.
Local Open Scope string_scope.

Set Implicit Arguments.
Set Warnings "-register-all,-inexact-float".

(** ** Python objects

    The objects [json.loads] can return.  A [str] is the sequence of its code
    points, each below 256; a [dict] keeps its items in insertion order. *)

Inductive value : Type :=
| PyNone
| PyBool (b : bool)
| PyInt (n : Z)
| PyFloat (x : float)
| PyStr (s : string)
| PyList (xs : list value)
| PyDict (items : list (string * value)).

(** Nested induction: the principle Rocq derives says nothing about the
    elements of a list or the values of a dict. *)
Section value_induction.
Variable P : value -> Prop.
Hypothesis HNone : P PyNone.
Hypothesis HBool : forall b, P (PyBool b).
Hypothesis HInt : forall n, P (PyInt n).
Hypothesis HFloat : forall x, P (PyFloat x).
Hypothesis HStr : forall s, P (PyStr s).
Hypothesis HList : forall xs, Forall P xs -> P (PyList xs).
Hypothesis HDict : forall items, Forall (fun kv => P (snd kv)) items -> P (PyDict items).

End value_induction.

(** [bool(v)]: the truth value the [and] of line 41 tests. *)
Definition truthy (v : value) : bool :=
  match v with
  | PyNone => false
  | PyBool b => b
  | PyInt n => negb (n =? 0)%Z
  | PyFloat x => negb (PrimFloat.eqb x 0%float)
  | PyStr s => negb (s =? EmptyString)
  | PyList xs => match xs with [] => false | _ => true end
  | PyDict items => match items with [] => false | _ => true end
  end.

(** [v == 'literal']: only a [str] with the same characters is equal. *)
Definition eq_str (v : value) (lit : string) : bool :=
  match v with
  | PyStr s => s =? lit
  | _ => false
  end.

(** ** Exceptions

    An instance of [Exception]: what [except Exception] catches.  Signals
    that are only [BaseException] (keyboard interrupt, cancellation) are
    outside the model; [sys.exit] is the [Exit] outcome below. *)
Record exn : Type := Exn {
  exn_name : string;           (* type(e).__name__ *)
  exn_str : string;            (* str(e) *)
  exn_isImportError : bool     (* isinstance(e, ImportError) *)
}.

Definition KeyError (key : string) : exn :=
  (* str(KeyError(k)) is repr(k); the keys of this script are plain words *)
  Exn "KeyError" ("'" ++ key ++ "'") false.
Definition TypeError (msg : string) : exn := Exn "TypeError" msg false.
Definition ValueError (msg : string) : exn := Exn "ValueError" msg false.
Definition IndexError (msg : string) : exn := Exn "IndexError" msg false.

(** ** The objects of [browser_use]

    An object of the package is the constructor call that made it. *)
Inductive llm : Type :=
| ChatGoogle (model api_key : value) (temperature : float)
| ChatOpenAI (model api_key : value) (base_url : string) (temperature : float).

Record browser : Type := Browser { browser_kwargs : list (string * value) }.

Record agent : Type := Agent {
  agent_task : value;
  agent_llm : llm;
  agent_browser : browser
}.

Inductive call : Type :=
| CallLLM (l : llm)
| CallBrowser (b : browser)
| CallAgent (a : agent)
| CallRun (a : agent).

(** ** What the script does not decide

    The behaviour of the interpreter's libraries and of [browser_use]:
    whether the import works, what [json.loads] makes of the argument,
    whether a constructor or the agent raises, and how values and traces
    are rendered. *)
Record world : Type := World {
  import_browser_use : option exn;         (* [Some e]: the import raised [e] *)
  json_loads : string -> exn + value;
  init_llm : llm -> option exn;
  init_browser : browser -> option exn;
  init_agent : agent -> option exn;
  agent_run : agent -> exn + string;       (* the result, as [str(result)] *)
  repr : value -> string;                  (* [str] of a value that is no [str] *)
  float_repr : float -> string;            (* [float.__repr__] *)
  format_exc : exn -> string               (* [traceback.format_exc()] *)
}.

(** ** State, outcomes and the monad *)

Record state : Type := State {
  stdout : list string;                    (* one entry per [print], oldest first *)
  calls : list call;                       (* calls into [browser_use], oldest first *)
  log_levels : list (string * Z)           (* logger name, level; latest first *)
}.

Definition init_state : state := State [] [] [].

Inductive outcome (A : Type) : Type :=
| Ret (a : A)
| Raise (e : exn)
| Exit (status : Z).
Arguments Raise {A} e.
Arguments Exit {A} status.

Definition M (A : Type) : Type := state -> outcome A * state.

Definition ret {A} (a : A) : M A := fun s => (Ret a, s).
Definition raise {A} (e : exn) : M A := fun s => (Raise e, s).
Definition sys_exit {A} (status : Z) : M A := fun s => (Exit status, s).

Definition bind {A B} (m : M A) (k : A -> M B) : M B :=
  fun s =>
    match m s with
    | (Ret a, s') => k a s'
    | (Raise e, s') => (Raise e, s')
    | (Exit n, s') => (Exit n, s')
    end.

Notation "x <- m ;; k" := (bind m (fun x => k))
  (at level 61, m at next level, right associativity).
Notation "m ;;; k" := (bind m (fun _ => k))
  (at level 61, right associativity).

(** [try: body except Exception as e: handler e]. *)
Definition try_except {A} (body : M A) (handler : exn -> M A) : M A :=
  fun s =>
    match body s with
    | (Raise e, s') => handler e s'
    | r => r
    end.

(** [try: body except ImportError as e: handler e]. *)
Definition try_except_ImportError {A} (body : M A) (handler : exn -> M A) : M A :=
  fun s =>
    match body s with
    | (Raise e, s') => if exn_isImportError e then handler e s' else (Raise e, s')
    | r => r
    end.

Definition lift {A} (r : exn + A) : M A :=
  match r with
  | inl e => raise e
  | inr a => ret a
  end.

Definition print (line : string) : M unit :=
  fun s => (Ret tt, State (stdout s ++ [line]) (calls s) (log_levels s)).

Definition record_call (c : call) : M unit :=
  fun s => (Ret tt, State (stdout s) (calls s ++ [c]) (log_levels s)).

Definition setLevel (logger : string) (level : Z) : M unit :=
  fun s => (Ret tt, State (stdout s) (calls s) ((logger, level) :: log_levels s)).

(** ** Subscripts and membership *)

Fixpoint lookup (key : string) (items : list (string * value)) : option value :=
  match items with
  | [] => None
  | (k, v) :: rest => if k =? key then Some v else lookup key rest
  end.

(** [d.get(key)] where [obj] is a dict [d]; nothing where it is not one. *)
Definition dict_get (obj : value) (key : string) : option value :=
  match obj with
  | PyDict items => lookup key items
  | _ => None
  end.

(** What [obj[key]] raises when it does (messages as CPython 3.11 words
    them). *)
Definition subscript_error (obj : value) (key : string) : exn :=
  match obj with
  | PyDict _ => KeyError key
  | PyList _ => TypeError "list indices must be integers or slices, not str"
  | PyStr _ => TypeError "string indices must be integers, not 'str'"
  | PyNone => TypeError "'NoneType' object is not subscriptable"
  | PyBool _ => TypeError "'bool' object is not subscriptable"
  | PyInt _ => TypeError "'int' object is not subscriptable"
  | PyFloat _ => TypeError "'float' object is not subscriptable"
  end.

(** [obj[key]] with a [str] key: only a dict holding the key answers. *)
Definition getitem (obj : value) (key : string) : M value :=
  match dict_get obj key with
  | Some v => ret v
  | None => raise (subscript_error obj key)
  end.

Fixpoint is_prefix (p s : string) : bool :=
  match p, s with
  | EmptyString, _ => true
  | String a p', String b s' => (a =? b)%char && is_prefix p' s'
  | String _ _, EmptyString => false
  end.

Fixpoint is_substring (p s : string) : bool :=
  is_prefix p s ||
  match s with
  | EmptyString => false
  | String _ s' => is_substring p s'
  end.

(** [key in obj] with a [str] key. *)
Definition contains (key : string) (obj : value) : M bool :=
  match obj with
  | PyDict items => ret (match lookup key items with Some _ => true | None => false end)
  | PyList xs => ret (existsb (fun x => eq_str x key) xs)
  | PyStr s => ret (is_substring key s)
  | PyNone => raise (TypeError "argument of type 'NoneType' is not iterable")
  | PyBool _ => raise (TypeError "argument of type 'bool' is not iterable")
  | PyInt _ => raise (TypeError "argument of type 'int' is not iterable")
  | PyFloat _ => raise (TypeError "argument of type 'float' is not iterable")
  end.

(** [d[key] = v] on a dict in insertion order. *)
Fixpoint setitem (key : string) (v : value) (items : list (string * value))
  : list (string * value) :=
  match items with
  | [] => [(key, v)]
  | (k, old) :: rest =>
      if k =? key then (k, v) :: rest else (k, old) :: setitem key v rest
  end.

(** [sys.argv[i]]. *)
Definition argv_get (argv : list string) (i : nat) : M string :=
  match nth_error argv i with
  | Some a => ret a
  | None => raise (IndexError "list index out of range")
  end.

(** ** [json.dumps] with its default arguments *)

Definition quote : string := String (ascii_of_nat 34) EmptyString.
Definition backslash : string := String (ascii_of_nat 92) EmptyString.

Definition hex_digit (n : nat) : ascii :=
  if Nat.ltb n 10 then ascii_of_nat (48 + n) else ascii_of_nat (87 + n).

(** One character of [encode_basestring_ascii]. *)
Definition escape_char (c : ascii) : string :=
  let n := nat_of_ascii c in
  if Nat.eqb n 34 then backslash ++ quote
  else if Nat.eqb n 92 then backslash ++ backslash
  else if Nat.eqb n 8 then backslash ++ "b"
  else if Nat.eqb n 12 then backslash ++ "f"
  else if Nat.eqb n 10 then backslash ++ "n"
  else if Nat.eqb n 13 then backslash ++ "r"
  else if Nat.eqb n 9 then backslash ++ "t"
  else if Nat.ltb n 32 || Nat.ltb 126 n then
    backslash ++ "u00" ++ String (hex_digit (n / 16)) (String (hex_digit (n mod 16)) EmptyString)
  else String c EmptyString.

Fixpoint escape (s : string) : string :=
  match s with
  | EmptyString => EmptyString
  | String c rest => escape_char c ++ escape rest
  end.

Definition encode_basestring_ascii (s : string) : string :=
  quote ++ escape s ++ quote.

Definition int_repr (n : Z) : string := NilZero.string_of_int (Z.to_int n).

(** [floatstr] of [json.encoder]. *)
Definition floatstr (float_repr : float -> string) (x : float) : string :=
  if PrimFloat.is_nan x then "NaN"
  else if PrimFloat.eqb x infinity then "Infinity"
  else if PrimFloat.eqb x neg_infinity then "-Infinity"
  else float_repr x.

Fixpoint join (sep : string) (parts : list string) : string :=
  match parts with
  | [] => EmptyString
  | [p] => p
  | p :: rest => p ++ sep ++ join sep rest
  end.

(** [float_repr] is [float.__repr__], which the interpreter supplies. *)
Fixpoint json_dumps (float_repr : float -> string) (v : value) : string :=
  match v with
  | PyNone => "null"
  | PyBool true => "true"
  | PyBool false => "false"
  | PyInt n => int_repr n
  | PyFloat x => floatstr float_repr x
  | PyStr s => encode_basestring_ascii s
  | PyList xs => "[" ++ join ", " (map (json_dumps float_repr) xs) ++ "]"
  | PyDict items =>
      "{" ++ join ", " (map (fun kv => encode_basestring_ascii (fst kv) ++ ": "
                                        ++ json_dumps float_repr (snd kv)) items) ++ "}"
  end.

(** [print(json.dumps(record))]. *)
Definition print_json (w : world) (record : value) : M unit :=
  print (json_dumps (float_repr w) record).

(** ** Calls into [browser_use] *)

Definition raise_if (r : option exn) : M unit :=
  match r with
  | Some e => raise e
  | None => ret tt
  end.

Definition new_llm (w : world) (l : llm) : M llm :=
  record_call (CallLLM l) ;;; raise_if (init_llm w l) ;;; ret l.

Definition new_browser (w : world) (b : browser) : M browser :=
  record_call (CallBrowser b) ;;; raise_if (init_browser w b) ;;; ret b.

Definition new_agent (w : world) (a : agent) : M agent :=
  record_call (CallAgent a) ;;; raise_if (init_agent w a) ;;; ret a.

Definition run (w : world) (a : agent) : M string :=
  record_call (CallRun a) ;;; lift (agent_run w a).

(** The replacement field [{provider}] of the f-string of line 37. *)
Definition format_field (w : world) (v : value) : string :=
  match v with
  | PyStr s => s
  | _ => repr w v
  end.

(** ** The script *)

Definition temperature : float := 0.1%float.
Definition openrouter_base_url : string := "https://openrouter.ai/api/v1".

(** Lines 55-59: the record of a run that returned. *)
Definition success_record (output : string) (task : value) : value :=
  PyDict [("success", PyBool true); ("output", PyStr output); ("task", task)].

(** Lines 62-67: the record of the handler. *)
Definition failure_record (w : world) (e : exn) : value :=
  PyDict [("success", PyBool false);
          ("error", PyStr (exn_str e));
          ("error_type", PyStr (exn_name e));
          ("traceback", PyStr (format_exc w e))].

(** Line 14: the record of the import guard. *)
Definition import_failure_record (e : exn) : value :=
  PyDict [("success", PyBool false);
          ("error", PyStr ("Package not installed: " ++ exn_str e))].

(** Lines 21-37: the client of the configured provider. *)
Definition make_llm (w : world) (config : value) : M llm :=
  llm_section <- getitem config "llm" ;;
  provider <- getitem llm_section "provider" ;;
  if eq_str provider "gemini" then
    section_m <- getitem config "llm" ;;
    model <- getitem section_m "model" ;;
    section_k <- getitem config "llm" ;;
    api_key <- getitem section_k "api_key" ;;
    new_llm w (ChatGoogle model api_key temperature)
  else if eq_str provider "openrouter" then
    section_m <- getitem config "llm" ;;
    model <- getitem section_m "model" ;;
    section_k <- getitem config "llm" ;;
    api_key <- getitem section_k "api_key" ;;
    new_llm w (ChatOpenAI model api_key openrouter_base_url temperature)
  else
    raise (ValueError ("Unsupported provider: " ++ format_field w provider)).

(** Lines 40-42: the keyword arguments of the browser session. *)
Definition make_browser_kwargs (config : value) : M (list (string * value)) :=
  let browser_kwargs := [] in
  present <- contains "chrome_profile_path" config ;;
  if present then
    path <- getitem config "chrome_profile_path" ;;
    if truthy path then
      path' <- getitem config "chrome_profile_path" ;;
      ret (setitem "user_data_dir" path' browser_kwargs)
    else ret browser_kwargs
  else ret browser_kwargs.

(** Lines 21-59: the body of the [try]. *)
Definition main_body (w : world) (config : value) : M unit :=
  llm <- make_llm w config ;;
  browser_kwargs <- make_browser_kwargs config ;;
  browser <- new_browser w (Browser browser_kwargs) ;;
  task <- getitem config "task" ;;
  agent <- new_agent w (Agent task llm browser) ;;
  result <- run w agent ;;
  task' <- getitem config "task" ;;
  print_json w (success_record result task').

(** Lines 60-67: the handler. *)
Definition main_handler (w : world) (e : exn) : M unit :=
  print_json w (failure_record w e).

(** Lines 17-67. *)
Definition main (w : world) (argv : list string) : M unit :=
  arg <- argv_get argv 1 ;;
  config <- lift (json_loads w arg) ;;
  try_except (main_body w config) (main_handler w).

Definition CRITICAL : Z := 50.

Fixpoint for_each {A} (xs : list A) (body : A -> M unit) : M unit :=
  match xs with
  | [] => ret tt
  | x :: rest => body x ;;; for_each rest body
  end.

(** Lines 6-9: levels only; the handler [basicConfig] installs writes to
    standard error. *)
Definition suppress_logging : M unit :=
  setLevel "root" CRITICAL ;;;
  for_each ["browser_use"; "playwright"; "httpx"; "openai"]
           (fun logger_name => setLevel logger_name CRITICAL).

(** Lines 11-15. *)
Definition import_guard (w : world) : M unit :=
  try_except_ImportError
    (raise_if (import_browser_use w))
    (fun e => print_json w (import_failure_record e) ;;; sys_exit 1).

(** The module, top to bottom; [name] is [__name__]. *)
Definition script (w : world) (name : string) (argv : list string) : M unit :=
  suppress_logging ;;;
  import_guard w ;;;
  if name =? "__main__" then main w argv else ret tt.

(** ** The process *)

Record process : Type := Process {
  proc_stdout : list string;       (* the lines written to standard output *)
  proc_status : Z;                 (* the exit status *)
  proc_uncaught : option exn;      (* the exception the interpreter reported, if any *)
  proc_calls : list call
}.

(** The interpreter around the module: status 0 when it ends, status 1 and a
    trace on standard error when an exception leaves it, the argument of
    [sys.exit] otherwise. *)
Definition finish (r : outcome unit * state) : process :=
  match r with
  | (Ret _, s) => Process (stdout s) 0 None (calls s)
  | (Raise e, s) => Process (stdout s) 1 (Some e) (calls s)
  | (Exit n, s) => Process (stdout s) n None (calls s)
  end.

(** [python browser_automation.py args]: [argv] is [sys.argv], the module
    runs as [__main__], and [asyncio.run] drives [main] to its end. *)
Definition invoke (w : world) (argv : list string) : process :=
  finish (script w "__main__" argv init_state).

(** ** A world to run the script in

    One possible behaviour of the libraries, for the examples: the package
    is installed, every constructor returns, the agent returns the text
    [done], and [json.loads] knows the argument texts listed in
    [loads_table] (any other text is taken as not being JSON). *)
Module Sample.

Definition JSONDecodeError (msg : string) : exn := Exn "JSONDecodeError" msg false.
Definition ModuleNotFoundError (msg : string) : exn := Exn "ModuleNotFoundError" msg true.
Definition RuntimeError (msg : string) : exn := Exn "RuntimeError" msg false.

(** The floats of the examples; no other float is rendered in them. *)
Definition float_text (x : float) : string :=
  if PrimFloat.eqb x 0.1%float then "0.1"
  else if PrimFloat.eqb x 0.5%float then "0.5"
  else "0.0".

(** [repr] of a value whose strings need no escaping. *)
Fixpoint value_text (v : value) : string :=
  match v with
  | PyNone => "None"
  | PyBool true => "True"
  | PyBool false => "False"
  | PyInt n => int_repr n
  | PyFloat x => float_text x
  | PyStr s => "'" ++ s ++ "'"
  | PyList xs => "[" ++ join ", " (map value_text xs) ++ "]"
  | PyDict items =>
      "{" ++ join ", " (map (fun kv => "'" ++ fst kv ++ "': " ++ value_text (snd kv)) items)
          ++ "}"
  end.

(** A trace cut down to its last line. *)
Definition trace_text (e : exn) : string :=
  "Traceback (most recent call last):"
    ++ String (ascii_of_nat 10) (exn_name e ++ ": " ++ exn_str e)
    ++ String (ascii_of_nat 10) EmptyString.

Definition llm_section (provider : string) : value :=
  PyDict [("provider", PyStr provider); ("model", PyStr "m"); ("api_key", PyStr "k")].

(** The configurations of the scenarios. *)
Definition openrouter_config : value :=
  PyDict [("llm", llm_section "openrouter"); ("task", PyStr "Open example.com")].
Definition bogus_config : value :=
  PyDict [("llm", llm_section "bogus"); ("task", PyStr "x")].
Definition gemini_profile_config : value :=
  PyDict [("llm", llm_section "gemini"); ("task", PyStr "x");
          ("chrome_profile_path", PyStr "/home/u/.config/chrome")].
Definition empty_profile_config : value :=
  PyDict [("llm", llm_section "gemini"); ("task", PyStr "x");
          ("chrome_profile_path", PyStr EmptyString)].
Definition no_task_config : value :=
  PyDict [("llm", llm_section "gemini")].

(** The text of a configuration: what [json.dumps] writes, [json.loads]
    reads back. *)
Definition text_of (config : value) : string := json_dumps float_text config.

Definition loads_table : list (string * (exn + value)) :=
  [ (text_of openrouter_config, inr openrouter_config);
    (text_of bogus_config, inr bogus_config);
    (text_of gemini_profile_config, inr gemini_profile_config);
    (text_of empty_profile_config, inr empty_profile_config);
    (text_of no_task_config, inr no_task_config);
    ("[]", inr (PyList []));
    ("{", inl (JSONDecodeError
         "Expecting property name enclosed in double quotes: line 1 column 2 (char 1)")) ].

Fixpoint loads_in (table : list (string * (exn + value))) (arg : string) : exn + value :=
  match table with
  | [] => inl (JSONDecodeError "Expecting value: line 1 column 1 (char 0)")
  | (text, r) :: rest => if text =? arg then r else loads_in rest arg
  end.

(** The package installed, everything works. *)
Definition installed : world :=
  World None (loads_in loads_table)
        (fun _ => None) (fun _ => None) (fun _ => None) (fun _ => inr "done")
        value_text float_text trace_text.

(** The package missing. *)
Definition not_installed : world :=
  World (Some (ModuleNotFoundError "No module named 'browser_use'")) (loads_in loads_table)
        (fun _ => None) (fun _ => None) (fun _ => None) (fun _ => inr "done")
        value_text float_text trace_text.

(** The agent fails at run time. *)
Definition agent_fails : world :=
  World None (loads_in loads_table)
        (fun _ => None) (fun _ => None) (fun _ => None)
        (fun _ => inl (RuntimeError "browser closed"))
        value_text float_text trace_text.

Definition script_path : string := "browser_automation.py".

End Sample.

(** ** Notions the statements use *)

(** A computation that prints nothing and does not exit. *)
Definition silent {A} (m : M A) : Prop :=
  forall s,
    match m s with
    | (Ret _, s') => stdout s' = stdout s
    | (Raise _, s') => stdout s' = stdout s
    | (Exit _, _) => False
    end.

(** The state in which [main] starts: lines 6-9 have run. *)
Definition logged_state : state :=
  State [] [] [("openai", CRITICAL); ("httpx", CRITICAL); ("playwright", CRITICAL);
               ("browser_use", CRITICAL); ("root", CRITICAL)].

(** The client a configuration asks for, read without the monad. *)
Definition llm_of (config : value) : option llm :=
  match dict_get config "llm" with
  | Some section =>
      match dict_get section "provider", dict_get section "model", dict_get section "api_key" with
      | Some provider, Some model, Some api_key =>
          if eq_str provider "gemini" then Some (ChatGoogle model api_key temperature)
          else if eq_str provider "openrouter"
               then Some (ChatOpenAI model api_key openrouter_base_url temperature)
               else None
      | _, _, _ => None
      end
  | None => None
  end.

(** The keyword arguments a configuration asks for, read without the monad. *)
Definition browser_kwargs_of (config : value) : list (string * value) :=
  match dict_get config "chrome_profile_path" with
  | Some path => if truthy path then [("user_data_dir", path)] else []
  | None => []
  end.

(** The calls of a run that goes all the way. *)
Definition full_trace (l : llm) (b : browser) (task : value) : list call :=
  [CallLLM l; CallBrowser b; CallAgent (Agent task l b); CallRun (Agent task l b)].

(** The keys of a dict, in order. *)
Definition dict_keys (obj : value) : list string :=
  match obj with
  | PyDict items => map fst items
  | _ => []
  end.



(** What lines 21-37 raise when they construct no client, read without the
    monad: the first subscript that fails, or the unsupported provider. *)
Definition llm_error (w : world) (config : value) : exn :=
  match dict_get config "llm" with
  | None => subscript_error config "llm"
  | Some section =>
      match dict_get section "provider" with
      | None => subscript_error section "provider"
      | Some provider =>
          if eq_str provider "gemini" || eq_str provider "openrouter" then
            match dict_get section "model" with
            | None => subscript_error section "model"
            | Some _ => subscript_error section "api_key"
            end
          else ValueError ("Unsupported provider: " ++ format_field w provider)
      end
  end.

(** The body of the [try], read without the monad: the exception it raises
    or the output and task it prints, and the calls it makes on the way. *)
Definition body_outcome (w : world) (config : value) : (exn + string * value) * list call :=
  match llm_of config with
  | None => (inl (llm_error w config), [])
  | Some l =>
      match init_llm w l with
      | Some e => (inl e, [CallLLM l])
      | None =>
          let b := Browser (browser_kwargs_of config) in
          match init_browser w b with
          | Some e => (inl e, [CallLLM l; CallBrowser b])
          | None =>
              match dict_get config "task" with
              | None => (inl (subscript_error config "task"), [CallLLM l; CallBrowser b])
              | Some task =>
                  let a := Agent task l b in
                  match init_agent w a with
                  | Some e => (inl e, [CallLLM l; CallBrowser b; CallAgent a])
                  | None =>
                      match agent_run w a with
                      | inl e => (inl e, full_trace l b task)
                      | inr out => (inr (out, task), full_trace l b task)
                      end
                  end
              end
          end
      end
  end.

(** How every line of the script begins: the key [success] and its value. *)
Definition success_prefix (ok : bool) : string :=
  "{" ++ quote ++ "success" ++ quote ++ ": " ++ (if ok then "true" else "false").

(** ** Worlds in which something fails *)
Module Failing.





(** The import raises something that is no [ImportError]. *)
Definition import_crashes : world :=
  World (Some (Sample.RuntimeError "incompatible pydantic version"))
        (Sample.loads_in Sample.loads_table)
        (fun _ => None) (fun _ => None) (fun _ => None) (fun _ => inr "done")
        Sample.value_text Sample.float_text Sample.trace_text.

(** Configurations with a field of the [llm] section missing. *)
Definition no_llm_config : value := PyDict [("task", PyStr "x")].
Definition no_provider_config : value :=
  PyDict [("llm", PyDict [("model", PyStr "m"); ("api_key", PyStr "k")]); ("task", PyStr "x")].
Definition no_model_config : value :=
  PyDict [("llm", PyDict [("provider", PyStr "gemini"); ("api_key", PyStr "k")]);
          ("task", PyStr "x")].
Definition no_api_key_config : value :=
  PyDict [("llm", PyDict [("provider", PyStr "openrouter"); ("model", PyStr "m")]);
          ("task", PyStr "x")].

(** The scenario with the unsupported provider, its fields in another order
    and two fields the script does not know. *)
Definition bogus_config_more : value :=
  PyDict [("verbose", PyBool true); ("task", PyStr "x");
          ("llm", Sample.llm_section "bogus"); ("retries", PyInt 3)].

Definition loads_table : list (string * (exn + value)) :=
  (Sample.text_of bogus_config_more, inr bogus_config_more)
  :: (Sample.text_of no_llm_config, inr no_llm_config)
  :: (Sample.text_of no_provider_config, inr no_provider_config)
  :: (Sample.text_of no_model_config, inr no_model_config)
  :: (Sample.text_of no_api_key_config, inr no_api_key_config)
  :: Sample.loads_table.

(** The package installed, everything works, the configurations above known. *)
Definition installed : world :=
  World None (Sample.loads_in loads_table)
        (fun _ => None) (fun _ => None) (fun _ => None) (fun _ => inr "done")
        Sample.value_text Sample.float_text Sample.trace_text.

End Failing.

(** * Proofs *)

(** ** The script on examples *)

Example run_openrouter :
  invoke Sample.installed [Sample.script_path; Sample.text_of Sample.openrouter_config] =
    Process [json_dumps Sample.float_text (success_record "done" (PyStr "Open example.com"))]
            0 None
            (full_trace (ChatOpenAI (PyStr "m") (PyStr "k") openrouter_base_url temperature)
                        (Browser []) (PyStr "Open example.com")).
Proof. vm_compute. reflexivity. Qed.

Example run_with_profile :
  proc_calls (invoke Sample.installed
                [Sample.script_path; Sample.text_of Sample.gemini_profile_config]) =
    full_trace (ChatGoogle (PyStr "m") (PyStr "k") temperature)
               (Browser [("user_data_dir", PyStr "/home/u/.config/chrome")]) (PyStr "x").
Proof. vm_compute. reflexivity. Qed.

Example run_agent_fails :
  invoke Sample.agent_fails [Sample.script_path; Sample.text_of Sample.openrouter_config] =
    Process [json_dumps Sample.float_text
               (failure_record Sample.agent_fails (Sample.RuntimeError "browser closed"))]
            0 None
            (full_trace (ChatOpenAI (PyStr "m") (PyStr "k") openrouter_base_url temperature)
                        (Browser []) (PyStr "Open example.com")).
Proof. vm_compute. reflexivity. Qed.

Example run_not_a_dict :
  proc_stdout (invoke Sample.installed [Sample.script_path; "[]"]) =
    [json_dumps Sample.float_text
       (failure_record Sample.installed
          (TypeError "list indices must be integers or slices, not str"))].
Proof. vm_compute. reflexivity. Qed.

Example run_not_installed :
  invoke Sample.not_installed [Sample.script_path; Sample.text_of Sample.bogus_config] =
    Process [json_dumps Sample.float_text
               (import_failure_record
                  (Sample.ModuleNotFoundError "No module named 'browser_use'"))]
            1 None [].
Proof. vm_compute. reflexivity. Qed.

Example dumps_escapes_line_break :
  json_dumps Sample.float_text (PyStr (String (ascii_of_nat 10) "x")) =
    quote ++ backslash ++ "nx" ++ quote.
Proof. vm_compute. reflexivity. Qed.

Example dumps_record :
  json_dumps Sample.float_text (PyDict [("success", PyBool false); ("n", PyInt (-12))]) =
    "{" ++ quote ++ "success" ++ quote ++ ": false, " ++ quote ++ "n" ++ quote ++ ": -12}".
Proof. vm_compute. reflexivity. Qed.

(** ** Subscripts *)

Lemma getitem_found obj key v s :
  dict_get obj key = Some v -> getitem obj key s = (Ret v, s).
Proof. unfold getitem. intros ->. reflexivity. Qed.

Lemma getitem_missing obj key s :
  dict_get obj key = None -> getitem obj key s = (Raise (subscript_error obj key), s).
Proof. unfold getitem. intros ->. reflexivity. Qed.

Lemma bind_getitem B obj key (k : value -> M B) s :
  bind (getitem obj key) k s =
    match dict_get obj key with
    | Some v => k v s
    | None => (Raise (subscript_error obj key), s)
    end.
Proof. unfold bind, getitem. destruct (dict_get obj key); reflexivity. Qed.

(** ** Computations that leave standard output alone *)

Lemma silent_ret A (a : A) : silent (ret a).
Proof. intros s. reflexivity. Qed.

Lemma silent_raise A e : silent (@raise A e).
Proof. intros s. reflexivity. Qed.

Lemma silent_bind A B (m : M A) (k : A -> M B) :
  silent m -> (forall a, silent (k a)) -> silent (bind m k).
Proof.
  intros Hm Hk s. unfold bind. specialize (Hm s).
  destruct (m s) as [[a|e|n] s1]; try assumption.
  specialize (Hk a s1). destruct (k a s1) as [[b|e|n] s2]; congruence.
Qed.

Lemma silent_if A (c : bool) (m1 m2 : M A) :
  silent m1 -> silent m2 -> silent (if c then m1 else m2).
Proof. destruct c; auto. Qed.

Lemma silent_lift A (r : exn + A) : silent (lift r).
Proof. destruct r; intros s; reflexivity. Qed.

Lemma silent_raise_if r : silent (raise_if r).
Proof. destruct r; intros s; reflexivity. Qed.

Lemma silent_getitem obj key : silent (getitem obj key).
Proof. intros s. unfold getitem. destruct (dict_get obj key); reflexivity. Qed.

Lemma silent_contains key obj : silent (contains key obj).
Proof. intros s. destruct obj; reflexivity. Qed.

Lemma silent_argv_get argv i : silent (argv_get argv i).
Proof. intros s. unfold argv_get. destruct (nth_error argv i); reflexivity. Qed.

Lemma silent_record_call c : silent (record_call c).
Proof. intros s. reflexivity. Qed.

Lemma silent_setLevel logger level : silent (setLevel logger level).
Proof. intros s. reflexivity. Qed.

Create HintDb silent.
#[local] Hint Resolve silent_ret silent_raise silent_bind silent_if silent_lift
  silent_raise_if silent_getitem silent_contains silent_argv_get
  silent_record_call silent_setLevel : silent.

Lemma silent_new_llm w l : silent (new_llm w l).
Proof. unfold new_llm. auto 10 with silent. Qed.

Lemma silent_new_browser w b : silent (new_browser w b).
Proof. unfold new_browser. auto 10 with silent. Qed.

Lemma silent_new_agent w a : silent (new_agent w a).
Proof. unfold new_agent. auto 10 with silent. Qed.

Lemma silent_run w a : silent (run w a).
Proof. unfold run. auto 10 with silent. Qed.

#[local] Hint Resolve silent_new_llm silent_new_browser silent_new_agent silent_run : silent.

Lemma silent_make_llm w config : silent (make_llm w config).
Proof. unfold make_llm. auto 20 with silent. Qed.

Lemma silent_make_browser_kwargs config : silent (make_browser_kwargs config).
Proof. unfold make_browser_kwargs. auto 20 with silent. Qed.

#[local] Hint Resolve silent_make_llm silent_make_browser_kwargs : silent.

(** A silent computation in front of a continuation either hands over its
    value or raises, with standard output as it was. *)
Lemma bind_silent A B (m : M A) (k : A -> M B) s :
  silent m ->
  (exists a s', m s = (Ret a, s') /\ stdout s' = stdout s /\ bind m k s = k a s') \/
  (exists e s', m s = (Raise e, s') /\ stdout s' = stdout s /\ bind m k s = (Raise e, s')).
Proof.
  intros Hm. specialize (Hm s). unfold bind.
  destruct (m s) as [[a|e|n] s1]; [left | right | contradiction].
  - exists a, s1. auto.
  - exists e, s1. auto.
Qed.

Ltac step_silent a s' Hm Hout :=
  match goal with
  | |- context [bind ?m ?k ?s] =>
      let H := fresh "Hbind" in
      destruct (@bind_silent _ _ m k s ltac:(auto 20 with silent))
        as [(a & s' & Hm & Hout & H) | (?e & s' & Hm & Hout & H)];
      rewrite H; clear H; cbv beta
  end.

(** ** The try block *)

(** The body prints its one line last: it returns after the success record,
    or it raises with nothing printed. *)
Lemma main_body_cases w config s :
  (exists out task s',
      main_body w config s = (Ret tt, s') /\
      dict_get config "task" = Some task /\
      stdout s' = (stdout s ++ [json_dumps (float_repr w) (success_record out task)])%list) \/
  (exists e s', main_body w config s = (Raise e, s') /\ stdout s' = stdout s).
Proof.
  unfold main_body.
  step_silent l s1 H1 O1; [| right; eexists _, _; split; [reflexivity | congruence]].
  step_silent kw s2 H2 O2; [| right; eexists _, _; split; [reflexivity | congruence]].
  step_silent b s3 H3 O3; [| right; eexists _, _; split; [reflexivity | congruence]].
  step_silent t s4 H4 O4; [| right; eexists _, _; split; [reflexivity | congruence]].
  step_silent a s5 H5 O5; [| right; eexists _, _; split; [reflexivity | congruence]].
  step_silent r s6 H6 O6; [| right; eexists _, _; split; [reflexivity | congruence]].
  rewrite bind_getitem. destruct (dict_get config "task") as [t'|] eqn:Ht.
  - left. exists r, t'. eexists. split; [reflexivity |]. split; [reflexivity |].
    simpl. congruence.
  - right. eexists _, _. split; [reflexivity | congruence].
Qed.

(** Whatever the body does, [main]'s try statement returns with exactly one
    more line on standard output. *)
Lemma try_block_prints_once w config s :
  exists line s',
    try_except (main_body w config) (main_handler w) s = (Ret tt, s') /\
    stdout s' = (stdout s ++ [line])%list /\
    ((exists out task, dict_get config "task" = Some task /\
                       line = json_dumps (float_repr w) (success_record out task)) \/
     (exists e, line = json_dumps (float_repr w) (failure_record w e))).
Proof.
  unfold try_except.
  destruct (main_body_cases w config s)
    as [(out & task & s' & -> & Ht & Hs) | (e & s' & -> & Hs)].
  - exists (json_dumps (float_repr w) (success_record out task)), s'.
    split; [reflexivity |]. split; [assumption |]. left. eauto.
  - exists (json_dumps (float_repr w) (failure_record w e)).
    eexists. split; [reflexivity |]. split.
    + simpl. rewrite Hs. reflexivity.
    + right. exists e. reflexivity.
Qed.

(** ** From the module to [main] *)

Lemma script_installed w argv :
  import_browser_use w = None ->
  script w "__main__" argv init_state = main w argv logged_state.
Proof.
  intros H. unfold script, import_guard, try_except_ImportError, bind.
  simpl. rewrite H. reflexivity.
Qed.

Lemma script_import_error w argv e :
  import_browser_use w = Some e -> exn_isImportError e = true ->
  script w "__main__" argv init_state =
    (Exit 1, State [json_dumps (float_repr w) (import_failure_record e)] []
                   (log_levels logged_state)).
Proof.
  intros H Hi. unfold script, import_guard, try_except_ImportError, bind.
  simpl. rewrite H. simpl. rewrite Hi. reflexivity.
Qed.

Lemma script_import_other w argv e :
  import_browser_use w = Some e -> exn_isImportError e = false ->
  script w "__main__" argv init_state = (Raise e, logged_state).
Proof.
  intros H Hi. unfold script, import_guard, try_except_ImportError, bind.
  simpl. rewrite H. simpl. rewrite Hi. reflexivity.
Qed.

Lemma main_no_argument w argv s :
  nth_error argv 1 = None ->
  main w argv s = (Raise (IndexError "list index out of range"), s).
Proof.
  intros H. unfold main, bind, argv_get. rewrite H. reflexivity.
Qed.

Lemma main_not_json w argv arg e s :
  nth_error argv 1 = Some arg -> json_loads w arg = inl e ->
  main w argv s = (Raise e, s).
Proof.
  intros H L. unfold main, bind, argv_get. rewrite H. simpl. rewrite L. reflexivity.
Qed.

Lemma main_parsed w argv arg config s :
  nth_error argv 1 = Some arg -> json_loads w arg = inr config ->
  main w argv s = try_except (main_body w config) (main_handler w) s.
Proof.
  intros H L. unfold main, bind, argv_get. rewrite H. simpl. rewrite L. reflexivity.
Qed.

(** ** The calls into [browser_use] *)

Lemma new_llm_calls w l s :
  exists o, new_llm w l s = (o, State (stdout s) (calls s ++ [CallLLM l]) (log_levels s)) /\
            (o = Ret l \/ exists e, o = Raise e).
Proof.
  unfold new_llm, bind, record_call, raise_if. simpl.
  destruct (init_llm w l) as [e|]; [exists (Raise e) | exists (Ret l)]; split; eauto.
Qed.

Lemma new_browser_calls w b s :
  exists o, new_browser w b s = (o, State (stdout s) (calls s ++ [CallBrowser b]) (log_levels s)) /\
            (o = Ret b \/ exists e, o = Raise e).
Proof.
  unfold new_browser, bind, record_call, raise_if. simpl.
  destruct (init_browser w b) as [e|]; [exists (Raise e) | exists (Ret b)]; split; eauto.
Qed.

Lemma new_agent_calls w a s :
  exists o, new_agent w a s = (o, State (stdout s) (calls s ++ [CallAgent a]) (log_levels s)) /\
            (o = Ret a \/ exists e, o = Raise e).
Proof.
  unfold new_agent, bind, record_call, raise_if. simpl.
  destruct (init_agent w a) as [e|]; [exists (Raise e) | exists (Ret a)]; split; eauto.
Qed.

Lemma run_calls w a s :
  exists o, run w a s = (o, State (stdout s) (calls s ++ [CallRun a]) (log_levels s)) /\
            ((exists out, o = Ret out) \/ exists e, o = Raise e).
Proof.
  unfold run, bind, record_call, lift. simpl.
  destruct (agent_run w a) as [e|out]; [exists (Raise e) | exists (Ret out)]; split; eauto.
Qed.

(** [make_llm] constructs the client [llm_of] names, or raises before any
    constructor is called. *)
Lemma make_llm_cases w config s :
  (exists l, llm_of config = Some l /\ make_llm w config s = new_llm w l s) \/
  (exists e, llm_of config = None /\ make_llm w config s = (Raise e, s)).
Proof.
  unfold make_llm, llm_of.
  rewrite bind_getitem. destruct (dict_get config "llm") as [sec|] eqn:D1; [| right; eauto].
  rewrite bind_getitem. destruct (dict_get sec "provider") as [provider|] eqn:D2;
    [| right; eauto].
  destruct (eq_str provider "gemini") eqn:Eg; [| destruct (eq_str provider "openrouter") eqn:Eo].
  - rewrite bind_getitem, D1, bind_getitem.
    destruct (dict_get sec "model") as [model|] eqn:D4; [| right; eauto].
    rewrite bind_getitem, D1, bind_getitem.
    destruct (dict_get sec "api_key") as [api_key|] eqn:D6; [| right; eauto].
    left. eauto.
  - rewrite bind_getitem, D1, bind_getitem.
    destruct (dict_get sec "model") as [model|] eqn:D4; [| right; eauto].
    rewrite bind_getitem, D1, bind_getitem.
    destruct (dict_get sec "api_key") as [api_key|] eqn:D6; [| right; eauto].
    left. eauto.
  - right. eexists. split; [| reflexivity].
    destruct (dict_get sec "model"), (dict_get sec "api_key"); reflexivity.
Qed.

(** On a dict, [make_browser_kwargs] returns what [browser_kwargs_of] names. *)
Lemma make_browser_kwargs_dict items s :
  make_browser_kwargs (PyDict items) s = (Ret (browser_kwargs_of (PyDict items)), s).
Proof.
  unfold make_browser_kwargs, browser_kwargs_of, bind, getitem. simpl.
  destruct (lookup "chrome_profile_path" items) as [path|] eqn:E; simpl; [| reflexivity].
  destruct (truthy path); reflexivity.
Qed.

Lemma llm_of_dict config l : llm_of config = Some l -> exists items, config = PyDict items.
Proof.
  unfold llm_of. destruct config; simpl; try discriminate. eauto.
Qed.

Lemma bind_returns A B (m : M A) (k : A -> M B) s a s' :
  m s = (Ret a, s') -> bind m k s = k a s'.
Proof. unfold bind. intros ->. reflexivity. Qed.

Lemma bind_raises A B (m : M A) (k : A -> M B) s e s' :
  m s = (Raise e, s') -> bind m k s = (Raise e, s').
Proof. unfold bind. intros ->. reflexivity. Qed.

(** The calls of the body: none when the configuration names no client;
    otherwise the client first, then the browser session with the keyword
    arguments of the configuration, then the agent and its run, up to the
    first call that raises. *)
Lemma main_body_calls w config s :
  exists t, calls (snd (main_body w config s)) = (calls s ++ t)%list /\
    match llm_of config with
    | None => t = []
    | Some l =>
        let b := Browser (browser_kwargs_of config) in
        match dict_get config "task" with
        | Some task => exists n, t = firstn (S n) (full_trace l b task)
        | None => t = [CallLLM l] \/ t = [CallLLM l; CallBrowser b]
        end
    end.
Proof.
  unfold main_body.
  destruct (make_llm_cases w config s) as [(l & Hl & E) | (e & Hl & E)]; rewrite Hl.
  2:{ exists []. erewrite bind_raises by exact E. simpl. rewrite app_nil_r. auto. }
  destruct (llm_of_dict _ Hl) as [items ->].
  destruct (new_llm_calls w l s) as (o1 & E1 & [-> | [e ->]]); rewrite E1 in E.
  2:{ exists [CallLLM l]. erewrite bind_raises by exact E. simpl. split; [reflexivity |].
      destruct (lookup "task" items); [exists 0%nat; reflexivity | auto]. }
  erewrite bind_returns by exact E. cbv beta. clear E E1.
  erewrite bind_returns by apply make_browser_kwargs_dict. cbv beta.
  set (b := Browser (browser_kwargs_of (PyDict items))).
  match goal with |- context [bind (new_browser w b) _ ?s1] =>
    destruct (new_browser_calls w b s1) as (o2 & E2 & [-> | [e ->]]) end.
  2:{ exists [CallLLM l; CallBrowser b]. erewrite bind_raises by exact E2. simpl.
      rewrite <- app_assoc. split; [reflexivity |].
      destruct (lookup "task" items); [exists 1%nat; reflexivity | auto]. }
  erewrite bind_returns by exact E2. cbv beta. clear E2.
  simpl stdout; simpl calls; simpl log_levels.
  rewrite bind_getitem. simpl dict_get.
  destruct (lookup "task" items) as [task|] eqn:Ht.
  2:{ exists [CallLLM l; CallBrowser b]. simpl. rewrite <- app_assoc. auto. }
  match goal with |- context [bind (new_agent w ?a) _ ?s1] =>
    destruct (new_agent_calls w a s1) as (o3 & E3 & [-> | [e ->]]) end.
  2:{ exists (firstn 3 (full_trace l b task)). erewrite bind_raises by exact E3. simpl.
      rewrite <- !app_assoc. split; [reflexivity | exists 2%nat; reflexivity]. }
  erewrite bind_returns by exact E3. cbv beta. clear E3.
  simpl stdout; simpl calls; simpl log_levels.
  match goal with |- context [bind (run w ?a) _ ?s1] =>
    destruct (run_calls w a s1) as (o4 & E4 & [[out ->] | [e ->]]) end.
  2:{ exists (full_trace l b task). erewrite bind_raises by exact E4. simpl.
      rewrite <- !app_assoc. split; [reflexivity | exists 3%nat; reflexivity]. }
  erewrite bind_returns by exact E4. cbv beta. clear E4.
  simpl stdout; simpl calls; simpl log_levels.
  rewrite bind_getitem. simpl dict_get. rewrite Ht.
  exists (full_trace l b task). simpl.
  rewrite <- !app_assoc. split; [reflexivity | exists 3%nat; reflexivity].
Qed.

(** The handler adds no call. *)
Lemma try_block_calls w config s :
  calls (snd (try_except (main_body w config) (main_handler w) s)) =
  calls (snd (main_body w config s)).
Proof.
  unfold try_except. destruct (main_body w config s) as [[u|e|n] s']; reflexivity.
Qed.

(** ** The five ways an invocation ends *)

Lemma invoke_import_error w argv e :
  import_browser_use w = Some e -> exn_isImportError e = true ->
  invoke w argv =
    Process [json_dumps (float_repr w) (import_failure_record e)] 1 None [].
Proof.
  intros H Hi. unfold invoke. rewrite (script_import_error w argv H Hi). reflexivity.
Qed.

Lemma invoke_import_other w argv e :
  import_browser_use w = Some e -> exn_isImportError e = false ->
  invoke w argv = Process [] 1 (Some e) [].
Proof.
  intros H Hi. unfold invoke. rewrite (script_import_other w argv H Hi). reflexivity.
Qed.

Lemma invoke_no_argument w argv :
  import_browser_use w = None -> nth_error argv 1 = None ->
  invoke w argv = Process [] 1 (Some (IndexError "list index out of range")) [].
Proof.
  intros H Ha. unfold invoke. rewrite (script_installed w argv H).
  rewrite (main_no_argument w argv logged_state Ha). reflexivity.
Qed.

Lemma invoke_not_json w argv arg e :
  import_browser_use w = None -> nth_error argv 1 = Some arg -> json_loads w arg = inl e ->
  invoke w argv = Process [] 1 (Some e) [].
Proof.
  intros H Ha Hl. unfold invoke. rewrite (script_installed w argv H).
  rewrite (main_not_json w argv logged_state Ha Hl). reflexivity.
Qed.

Lemma invoke_parsed w argv arg config :
  import_browser_use w = None -> nth_error argv 1 = Some arg -> json_loads w arg = inr config ->
  exists line,
    invoke w argv = Process [line] 0 None (calls (snd (main_body w config logged_state))) /\
    ((exists out task, dict_get config "task" = Some task /\
                       line = json_dumps (float_repr w) (success_record out task)) \/
     (exists e, line = json_dumps (float_repr w) (failure_record w e))).
Proof.
  intros H Ha Hl. unfold invoke. rewrite (script_installed w argv H).
  rewrite (main_parsed w argv logged_state Ha Hl).
  pose proof (try_block_calls w config logged_state) as Hc.
  destruct (try_block_prints_once w config logged_state) as (line & s' & E & Hs & Hshape).
  rewrite E in Hc |- *. simpl in Hc. exists line. split; [| exact Hshape].
  simpl. rewrite Hs, Hc. reflexivity.
Qed.

(** The try statement after a body that raised: the handler's record, and
    nothing else, is printed. *)
Lemma try_block_raised w config s e s' :
  main_body w config s = (Raise e, s') ->
  try_except (main_body w config) (main_handler w) s =
    (Ret tt, State (stdout s ++ [json_dumps (float_repr w) (failure_record w e)])
                   (calls s') (log_levels s')).
Proof.
  intros E. unfold try_except. rewrite E.
  destruct (main_body_cases w config s)
    as [(out & task & s1 & E1 & _) | (e1 & s1 & E1 & Hs)]; [congruence |].
  assert (s1 = s') by congruence. subst s1.
  unfold main_handler, print_json, print. rewrite Hs. reflexivity.
Qed.

Lemma invoke_parsed_raised w argv arg config e s' :
  import_browser_use w = None -> nth_error argv 1 = Some arg -> json_loads w arg = inr config ->
  main_body w config logged_state = (Raise e, s') ->
  invoke w argv = Process [json_dumps (float_repr w) (failure_record w e)] 0 None (calls s').
Proof.
  intros H Ha Hl E. unfold invoke. rewrite (script_installed w argv H).
  rewrite (main_parsed w argv logged_state Ha Hl).
  rewrite (try_block_raised w config logged_state E). reflexivity.
Qed.

(** [v == 'literal'] is true of one value only. *)
Lemma eq_str_false v lit : v <> PyStr lit -> eq_str v lit = false.
Proof.
  intros H. destruct v; simpl; try reflexivity.
  destruct (String.eqb_spec s lit); [subst; contradiction | reflexivity].
Qed.


(** ** One record is one line

    [json.dumps] with its default arguments writes printable ASCII only, so
    the text of a record never holds a line break. *)














(** * The claims *)

(** C1.  The claim: with a single argument no exception leaves the task
    runner, a malformed JSON argument included.  The code parses the argument
    on line 18, before the [try] of line 20: with the package installed and
    the argument [{], the [JSONDecodeError] of [json.loads] leaves [main] and
    the process uncaught, and no record is written. *)
Theorem malformed_json_escapes :
  invoke Sample.installed [Sample.script_path; "{"] =
    Process [] 1
      (Some (Sample.JSONDecodeError
         "Expecting property name enclosed in double quotes: line 1 column 2 (char 1)"))
      [].
Proof. vm_compute. reflexivity. Qed.

(** C2.  The claim: every invocation writes exactly one JSON line, malformed
    configuration input included.  On the argument [{] the code writes no
    line at all (the parse of line 18 raises outside the [try]). *)
Theorem malformed_json_prints_nothing :
  List.length (proc_stdout (invoke Sample.installed [Sample.script_path; "{"])) = 0%nat.
Proof. vm_compute. reflexivity. Qed.

(** C3.  The claim: the exit status is 1 if and only if the dependency fails
    to import.  On the argument [{] the import succeeds and the status is
    still 1, with no failure record on standard output: the uncaught
    exception of line 18 ends the process. *)
Theorem malformed_json_exit_status :
  import_browser_use Sample.installed = None /\
  proc_status (invoke Sample.installed [Sample.script_path; "{"]) = 1%Z /\
  proc_stdout (invoke Sample.installed [Sample.script_path; "{"]) = [].
Proof. vm_compute. repeat split. Qed.

(** C4, as claimed, fails: the record of the import guard (line 14) has
    [success] false and an [error] message but no [error_type].  With the
    package missing, that record is what the process prints. *)
Lemma import_failure_record_lacks_error_type :
  ~ (forall w argv record,
       In (json_dumps (float_repr w) record) (proc_stdout (invoke w argv)) ->
       dict_get record "success" = Some (PyBool false) ->
       dict_get record "error" <> None /\ dict_get record "error_type" <> None).
Proof.
  intros claim.
  destruct (claim Sample.not_installed [Sample.script_path]
              (import_failure_record
                 (Sample.ModuleNotFoundError "No module named 'browser_use'")))
    as [_ Htype].
  - vm_compute. auto.
  - reflexivity.
  - apply Htype. reflexivity.
Qed.

(** C4, amended.  Every line on standard output is the JSON text of one of
    three records: the success record, the record of the runtime handler, or
    the record of the import guard.  A record with [success] false always
    carries an [error] message; the handler's record (the only failure
    record when the import succeeded) also carries [error_type] and
    [traceback]; the import guard's record (the only record when the import
    failed) has the keys [success] and [error] and no others. *)
Theorem failure_records_carry_error w argv line :
  In line (proc_stdout (invoke w argv)) ->
  exists record,
    line = json_dumps (float_repr w) record /\
    ((exists out task, record = success_record out task) \/
     (exists e, import_browser_use w = None /\ record = failure_record w e) \/
     (exists e, import_browser_use w = Some e /\ record = import_failure_record e)) /\
    (dict_get record "success" = Some (PyBool false) ->
     (exists msg, dict_get record "error" = Some (PyStr msg)) /\
     (import_browser_use w = None ->
      (exists name, dict_get record "error_type" = Some (PyStr name)) /\
      (exists text, dict_get record "traceback" = Some (PyStr text))) /\
     (import_browser_use w <> None -> dict_keys record = ["success"; "error"])).
Proof.
  intros Hin.
  destruct (import_browser_use w) as [e|] eqn:H.
  { destruct (exn_isImportError e) eqn:Hi.
    - rewrite (invoke_import_error w argv H Hi) in Hin.
      destruct Hin as [<- | []].
      exists (import_failure_record e). split; [reflexivity |]. split.
      + right; right. exists e. auto.
      + intros _. split; [eexists; reflexivity |]. split; [discriminate | reflexivity].
    - rewrite (invoke_import_other w argv H Hi) in Hin. contradiction. }
  destruct (nth_error argv 1) as [arg|] eqn:Ha.
  2:{ rewrite (invoke_no_argument w argv H Ha) in Hin. contradiction. }
  destruct (json_loads w arg) as [e|config] eqn:Hl.
  { rewrite (invoke_not_json w argv H Ha Hl) in Hin. contradiction. }
  destruct (invoke_parsed w argv H Ha Hl)
    as (line' & E & [(out & task & _ & ->) | (e & ->)]);
    rewrite E in Hin; destruct Hin as [<- | []].
  - exists (success_record out task). split; [reflexivity |]. split.
    + left. eauto.
    + discriminate.
  - exists (failure_record w e). split; [reflexivity |]. split.
    + right; left. eauto.
    + intros _. split; [eexists; reflexivity |]. split.
      * intros _. split; eexists; reflexivity.
      * intros Hne. contradiction.
Qed.

Lemma failure_records_carry_error_witness :
  exists record,
    json_dumps Sample.float_text
      (import_failure_record (Sample.ModuleNotFoundError "No module named 'browser_use'")) =
      json_dumps Sample.float_text record /\
    (dict_get record "success" = Some (PyBool false) ->
     (exists msg, dict_get record "error" = Some (PyStr msg)) /\
     dict_keys record = ["success"; "error"]).
Proof.
  destruct (@failure_records_carry_error Sample.not_installed [Sample.script_path]
              (json_dumps Sample.float_text
                 (import_failure_record
                    (Sample.ModuleNotFoundError "No module named 'browser_use'"))))
    as (record & Hline & _ & Hfields); [vm_compute; auto |].
  exists record. split; [exact Hline |].
  intros Hs. destruct (Hfields Hs) as (Herr & _ & Hkeys).
  split; [exact Herr | apply Hkeys; discriminate].
Defined.

(** C5.  For every configuration whose [llm.provider] is neither [gemini]
    nor [openrouter], the run prints the failure record of a [ValueError]
    whose message is [Unsupported provider: ] followed by the provider, no
    client is constructed and the status is 0; [success] is false and
    [error] is that message, which for a provider that is a string ends in
    the provider string itself. *)
Theorem unsupported_provider_reported w argv arg config section provider :
  import_browser_use w = None ->
  nth_error argv 1 = Some arg ->
  json_loads w arg = inr config ->
  dict_get config "llm" = Some section ->
  dict_get section "provider" = Some provider ->
  provider <> PyStr "gemini" ->
  provider <> PyStr "openrouter" ->
  let e := ValueError ("Unsupported provider: " ++ format_field w provider) in
  invoke w argv = Process [json_dumps (float_repr w) (failure_record w e)] 0 None [] /\
  dict_get (failure_record w e) "success" = Some (PyBool false) /\
  dict_get (failure_record w e) "error" =
    Some (PyStr ("Unsupported provider: " ++ format_field w provider)) /\
  (forall name, provider = PyStr name ->
     dict_get (failure_record w e) "error" = Some (PyStr ("Unsupported provider: " ++ name))).
Proof.
  intros H Ha Hl Hs Hp Hg Ho e.
  split; [| split; [reflexivity | split; [reflexivity | intros name ->; reflexivity]]].
  apply (invoke_parsed_raised w argv (s' := logged_state) H Ha Hl).
  unfold main_body. apply bind_raises. unfold make_llm.
  rewrite bind_getitem, Hs. cbv beta iota.
  rewrite bind_getitem, Hp. cbv beta iota.
  rewrite (eq_str_false Hg), (eq_str_false Ho). reflexivity.
Qed.

Lemma unsupported_provider_reported_witness :
  invoke Sample.installed [Sample.script_path; Sample.text_of Sample.bogus_config] =
    Process [json_dumps Sample.float_text
               (failure_record Sample.installed (ValueError "Unsupported provider: bogus"))]
            0 None [] /\
  dict_get (failure_record Sample.installed (ValueError "Unsupported provider: bogus")) "error" =
    Some (PyStr "Unsupported provider: bogus").
Proof.
  destruct (@unsupported_provider_reported Sample.installed
              [Sample.script_path; Sample.text_of Sample.bogus_config]
              (Sample.text_of Sample.bogus_config) Sample.bogus_config
              (Sample.llm_section "bogus") (PyStr "bogus"))
    as (Hrun & _ & Herr & _);
    [reflexivity | reflexivity | vm_compute; reflexivity | reflexivity | reflexivity
    | discriminate | discriminate |].
  split; [exact Hrun | exact Herr].
Defined.

(** The client is the first call and the only client of the trace. *)
Lemma invoke_calls_llm w argv arg config l :
  import_browser_use w = None -> nth_error argv 1 = Some arg -> json_loads w arg = inr config ->
  llm_of config = Some l ->
  exists rest, proc_calls (invoke w argv) = CallLLM l :: rest /\
               forall l', ~ In (CallLLM l') rest.
Proof.
  intros H Ha Hl Hc.
  destruct (invoke_parsed w argv H Ha Hl) as (line & -> & _). simpl.
  destruct (main_body_calls w config logged_state) as (t & -> & Ht).
  rewrite Hc in Ht. simpl in Ht |- *.
  destruct (dict_get config "task") as [task|].
  - destruct Ht as (n & ->). simpl. eexists. split; [reflexivity |].
    intros l' Hin. destruct n as [|[|[|n]]]; simpl in Hin;
      rewrite ?firstn_nil in Hin; simpl in Hin;
      repeat (destruct Hin as [Hin | Hin]; [discriminate |]); exact Hin.
  - destruct Ht as [-> | ->]; eexists; (split; [reflexivity |]);
      intros l' Hin; simpl in Hin;
      repeat (destruct Hin as [Hin | Hin]; [discriminate |]); exact Hin.
Qed.

Lemma invoke_calls_none w argv arg config :
  import_browser_use w = None -> nth_error argv 1 = Some arg -> json_loads w arg = inr config ->
  llm_of config = None ->
  proc_calls (invoke w argv) = [].
Proof.
  intros H Ha Hl Hc.
  destruct (invoke_parsed w argv H Ha Hl) as (line & -> & _). simpl.
  destruct (main_body_calls w config logged_state) as (t & -> & Ht).
  rewrite Hc in Ht. subst t. reflexivity.
Qed.

(** C6.  Provider dispatch has two branches and no third.  For [gemini] the
    one client constructed is [ChatGoogle] with the configuration's [model]
    and [api_key] and temperature 0.1; for [openrouter] it is [ChatOpenAI]
    with the configuration's [model] and [api_key], the base URL
    [https://openrouter.ai/api/v1] and temperature 0.1; for any other
    provider no constructor of the package is called at all. *)
Theorem provider_dispatch w argv arg config section provider :
  import_browser_use w = None ->
  nth_error argv 1 = Some arg ->
  json_loads w arg = inr config ->
  dict_get config "llm" = Some section ->
  dict_get section "provider" = Some provider ->
  (provider = PyStr "gemini" ->
   forall model api_key,
     dict_get section "model" = Some model -> dict_get section "api_key" = Some api_key ->
     exists rest,
       proc_calls (invoke w argv) = CallLLM (ChatGoogle model api_key 0.1%float) :: rest /\
       forall l, ~ In (CallLLM l) rest) /\
  (provider = PyStr "openrouter" ->
   forall model api_key,
     dict_get section "model" = Some model -> dict_get section "api_key" = Some api_key ->
     exists rest,
       proc_calls (invoke w argv) =
         CallLLM (ChatOpenAI model api_key "https://openrouter.ai/api/v1" 0.1%float) :: rest /\
       forall l, ~ In (CallLLM l) rest) /\
  (provider <> PyStr "gemini" -> provider <> PyStr "openrouter" ->
   proc_calls (invoke w argv) = []).
Proof.
  intros H Ha Hl Hs Hp. repeat split.
  - intros -> model api_key Hm Hk.
    apply (invoke_calls_llm w argv H Ha Hl).
    unfold llm_of. rewrite Hs, Hp, Hm, Hk. reflexivity.
  - intros -> model api_key Hm Hk.
    apply (invoke_calls_llm w argv H Ha Hl).
    unfold llm_of. rewrite Hs, Hp, Hm, Hk. reflexivity.
  - intros Hg Ho.
    apply (invoke_calls_none w argv H Ha Hl).
    unfold llm_of. rewrite Hs, Hp, (eq_str_false Hg), (eq_str_false Ho).
    destruct (dict_get section "model"), (dict_get section "api_key"); reflexivity.
Qed.

Lemma provider_dispatch_witness :
  (exists rest,
     proc_calls (invoke Sample.installed
                   [Sample.script_path; Sample.text_of Sample.openrouter_config]) =
       CallLLM (ChatOpenAI (PyStr "m") (PyStr "k") "https://openrouter.ai/api/v1" 0.1%float)
         :: rest) /\
  proc_calls (invoke Sample.installed
                [Sample.script_path; Sample.text_of Sample.openrouter_config]) =
    full_trace (ChatOpenAI (PyStr "m") (PyStr "k") "https://openrouter.ai/api/v1" 0.1%float)
               (Browser []) (PyStr "Open example.com").
Proof.
  split; [| vm_compute; reflexivity].
  destruct (@provider_dispatch Sample.installed
              [Sample.script_path; Sample.text_of Sample.openrouter_config]
              (Sample.text_of Sample.openrouter_config) Sample.openrouter_config
              (Sample.llm_section "openrouter") (PyStr "openrouter"))
    as (_ & Hopen & _);
    [reflexivity | reflexivity | vm_compute; reflexivity | reflexivity | reflexivity |].
  destruct (Hopen eq_refl (PyStr "m") (PyStr "k") eq_refl eq_refl) as (rest & Hrest & _).
  exists rest. exact Hrest.
Defined.

Lemma in_firstn A (x : A) n l : In x (firstn n l) -> In x l.
Proof.
  revert l. induction n as [|n IH]; intros [|y l]; simpl; try contradiction.
  intros [-> | Hin]; [left; reflexivity | right; apply IH, Hin].
Qed.

(** Every browser session of an invocation was built from a parsed
    configuration, with the keyword arguments that configuration asks for. *)
Lemma invoke_calls_browser w argv b :
  In (CallBrowser b) (proc_calls (invoke w argv)) ->
  exists arg config,
    nth_error argv 1 = Some arg /\ json_loads w arg = inr config /\
    b = Browser (browser_kwargs_of config).
Proof.
  intros Hin.
  destruct (import_browser_use w) as [e|] eqn:H.
  { destruct (exn_isImportError e) eqn:Hi.
    - rewrite (invoke_import_error w argv H Hi) in Hin. contradiction.
    - rewrite (invoke_import_other w argv H Hi) in Hin. contradiction. }
  destruct (nth_error argv 1) as [arg|] eqn:Ha.
  2:{ rewrite (invoke_no_argument w argv H Ha) in Hin. contradiction. }
  destruct (json_loads w arg) as [e|config] eqn:Hl.
  { rewrite (invoke_not_json w argv H Ha Hl) in Hin. contradiction. }
  exists arg, config. split; [reflexivity |]. split; [exact Hl |].
  destruct (invoke_parsed w argv H Ha Hl) as (line & E & _). rewrite E in Hin. simpl in Hin.
  destruct (main_body_calls w config logged_state) as (t & Et & Ht).
  rewrite Et in Hin. change (In (CallBrowser b) t) in Hin.
  destruct (llm_of config) as [l|]; [| subst t; contradiction].
  cbv zeta in Ht. destruct (dict_get config "task") as [task|].
  - destruct Ht as (n & ->). apply in_firstn in Hin.
    simpl in Hin. destruct Hin as [Hin | [Hin | [Hin | [Hin | []]]]]; congruence.
  - destruct Ht as [-> | ->]; simpl in Hin.
    + destruct Hin as [Hin | []]; congruence.
    + destruct Hin as [Hin | [Hin | []]]; congruence.
Qed.

(** C7.  Every browser session the script constructs was given the keyword
    arguments of lines 40-42: none when [chrome_profile_path] is absent from
    the configuration or its value is empty (false as a truth value), and
    [user_data_dir] with the value itself, unchanged, when it is present and
    not empty.  For a path that is a string, empty is the empty string. *)
Theorem browser_session_profile w argv b :
  In (CallBrowser b) (proc_calls (invoke w argv)) ->
  exists arg config,
    nth_error argv 1 = Some arg /\ json_loads w arg = inr config /\
    (dict_get config "chrome_profile_path" = None -> browser_kwargs b = []) /\
    (forall path, dict_get config "chrome_profile_path" = Some path ->
                  truthy path = false -> browser_kwargs b = []) /\
    (forall path, dict_get config "chrome_profile_path" = Some path ->
                  truthy path = true -> browser_kwargs b = [("user_data_dir", path)]) /\
    (forall text, dict_get config "chrome_profile_path" = Some (PyStr text) ->
                  (text = EmptyString -> browser_kwargs b = []) /\
                  (text <> EmptyString -> browser_kwargs b = [("user_data_dir", PyStr text)])).
Proof.
  intros Hin.
  destruct (invoke_calls_browser w argv b Hin) as (arg & config & Ha & Hl & ->).
  exists arg, config. split; [exact Ha |]. split; [exact Hl |].
  unfold browser_kwargs_of. simpl.
  split; [| split; [| split]].
  - intros ->. reflexivity.
  - intros path -> ->. reflexivity.
  - intros path -> ->. reflexivity.
  - intros text ->. simpl. split.
    + intros ->. reflexivity.
    + intros Hne. destruct (String.eqb_spec text EmptyString); [contradiction | reflexivity].
Qed.

Lemma browser_session_profile_witness :
  let argv := [Sample.script_path; Sample.text_of Sample.gemini_profile_config] in
  let b := Browser [("user_data_dir", PyStr "/home/u/.config/chrome")] in
  In (CallBrowser b) (proc_calls (invoke Sample.installed argv)) /\
  exists arg config,
    nth_error argv 1 = Some arg /\ json_loads Sample.installed arg = inr config /\
    (forall path, dict_get config "chrome_profile_path" = Some path ->
                  truthy path = true -> browser_kwargs b = [("user_data_dir", path)]).
Proof.
  intros argv b.
  assert (Hin : In (CallBrowser b) (proc_calls (invoke Sample.installed argv)))
    by (vm_compute; auto).
  split; [exact Hin |].
  destruct (@browser_session_profile Sample.installed argv b Hin)
    as (arg & config & Ha & Hl & _ & _ & Hpath & _).
  exists arg, config. auto.
Defined.

(** With a configuration that names a client, and the client's constructor
    returning, the browser session is constructed. *)
Lemma browser_session_constructed w argv arg config l :
  import_browser_use w = None -> nth_error argv 1 = Some arg -> json_loads w arg = inr config ->
  llm_of config = Some l -> init_llm w l = None ->
  In (CallBrowser (Browser (browser_kwargs_of config))) (proc_calls (invoke w argv)).
Proof.
  intros H Ha Hl Hc Hi.
  destruct (invoke_parsed w argv H Ha Hl) as (line & -> & _). simpl.
  unfold main_body.
  destruct (make_llm_cases w config logged_state) as [(l' & Hl' & E) | (e & Hl' & E)];
    [| congruence].
  assert (l' = l) by congruence. subst l'.
  destruct (llm_of_dict _ Hc) as [items ->].
  assert (E1 : make_llm w (PyDict items) logged_state =
               (Ret l, State [] [CallLLM l] (log_levels logged_state))).
  { rewrite E. unfold new_llm, bind, record_call, raise_if. simpl. rewrite Hi. reflexivity. }
  erewrite bind_returns by exact E1. cbv beta.
  erewrite bind_returns by apply make_browser_kwargs_dict. cbv beta.
  set (b := Browser (browser_kwargs_of (PyDict items))).
  match goal with |- context [bind (new_browser w b) ?k ?s1] =>
    destruct (new_browser_calls w b s1) as (o & E2 & Ho);
    assert (Hgrow : exists t, calls (snd (bind (new_browser w b) k s1))
                              = ([CallLLM l; CallBrowser b] ++ t)%list)
  end.
  { destruct Ho as [-> | [e ->]].
    - erewrite bind_returns by exact E2. cbv beta.
      rewrite bind_getitem. simpl dict_get.
      destruct (lookup "task" items) as [task|]; [| exists []; reflexivity].
      match goal with |- context [bind (new_agent w ?a) ?k ?s1] =>
        destruct (new_agent_calls w a s1) as (o3 & E3 & [-> | [e ->]]) end.
      2:{ erewrite bind_raises by exact E3. eexists. reflexivity. }
      erewrite bind_returns by exact E3. cbv beta.
      match goal with |- context [bind (run w ?a) ?k ?s1] =>
        destruct (run_calls w a s1) as (o4 & E4 & [[out ->] | [e ->]]) end.
      2:{ erewrite bind_raises by exact E4. simpl. eexists. reflexivity. }
      erewrite bind_returns by exact E4. cbv beta.
      rewrite bind_getitem. simpl. destruct (lookup "task" items); eexists; reflexivity.
    - erewrite bind_raises by exact E2. exists []. reflexivity. }
  destruct Hgrow as (t & ->). simpl. auto.
Qed.

(** With the client and the browser session constructed, a dict without
    [task] makes line 48 raise [KeyError]. *)
Lemma main_body_missing_task w config l s :
  llm_of config = Some l -> init_llm w l = None ->
  init_browser w (Browser (browser_kwargs_of config)) = None ->
  dict_get config "task" = None ->
  exists s', main_body w config s = (Raise (KeyError "task"), s').
Proof.
  intros Hc Hi Hb Ht. unfold main_body.
  destruct (make_llm_cases w config s) as [(l' & Hl' & E) | (e & Hl' & E)]; [| congruence].
  assert (l' = l) by congruence. subst l'.
  destruct (llm_of_dict _ Hc) as [items ->].
  assert (E1 : make_llm w (PyDict items) s =
               (Ret l, State (stdout s) (calls s ++ [CallLLM l]) (log_levels s))).
  { rewrite E. unfold new_llm, bind, record_call, raise_if. simpl. rewrite Hi. reflexivity. }
  erewrite bind_returns by exact E1. cbv beta.
  erewrite bind_returns by apply make_browser_kwargs_dict. cbv beta.
  set (b := Browser (browser_kwargs_of (PyDict items))) in *.
  match goal with |- context [bind (new_browser w b) ?k ?s1] =>
    assert (E2 : new_browser w b s1 =
                 (Ret b, State (stdout s1) (calls s1 ++ [CallBrowser b]) (log_levels s1)))
  end.
  { unfold new_browser, bind, record_call, raise_if. simpl. rewrite Hb. reflexivity. }
  erewrite bind_returns by exact E2. cbv beta.
  rewrite bind_getitem, Ht. eexists. reflexivity.
Qed.

(** C8.  For every configuration that parses and lacks the [task] field,
    the one line on standard output is the failure record of an exception
    caught at the top-level handler: [success] is false, the status is 0 and
    no exception leaves the process.  When the configuration is otherwise
    well formed and the client and the browser session are constructed, the
    exception is the [KeyError] of the field access on line 48. *)
Theorem missing_task_reported w argv arg config :
  import_browser_use w = None ->
  nth_error argv 1 = Some arg ->
  json_loads w arg = inr config ->
  dict_get config "task" = None ->
  exists e,
    proc_stdout (invoke w argv) = [json_dumps (float_repr w) (failure_record w e)] /\
    dict_get (failure_record w e) "success" = Some (PyBool false) /\
    proc_status (invoke w argv) = 0%Z /\
    proc_uncaught (invoke w argv) = None /\
    (forall l, llm_of config = Some l -> init_llm w l = None ->
               init_browser w (Browser (browser_kwargs_of config)) = None ->
               e = KeyError "task").
Proof.
  intros H Ha Hl Ht.
  destruct (main_body_cases w config logged_state)
    as [(out & task & s' & _ & Htask & _) | (e & s' & E & _)]; [congruence |].
  exists e. rewrite (invoke_parsed_raised w argv H Ha Hl E). simpl.
  repeat split.
  intros l Hc Hi Hb.
  destruct (@main_body_missing_task w config l logged_state Hc Hi Hb Ht) as (s1 & E1).
  congruence.
Qed.

Lemma missing_task_reported_witness :
  exists e,
    proc_stdout (invoke Sample.installed
                   [Sample.script_path; Sample.text_of Sample.no_task_config]) =
      [json_dumps Sample.float_text (failure_record Sample.installed e)] /\
    e = KeyError "task".
Proof.
  destruct (@missing_task_reported Sample.installed
              [Sample.script_path; Sample.text_of Sample.no_task_config]
              (Sample.text_of Sample.no_task_config) Sample.no_task_config)
    as (e & Hout & _ & _ & _ & He);
    [reflexivity | reflexivity | vm_compute; reflexivity | reflexivity |].
  exists e. split; [exact Hout |].
  apply (He (ChatGoogle (PyStr "m") (PyStr "k") temperature)); reflexivity.
Defined.

(** C9.  When the package is installed and the process is invoked with no
    command-line argument, [sys.argv[1]] raises [IndexError] before the
    [try] is entered: [main] raises it with standard output untouched, and
    the process ends with the exception uncaught, status 1, having written
    no record and called nothing. *)
Theorem no_argument_no_record w argv :
  import_browser_use w = None ->
  (List.length argv <= 1)%nat ->
  (forall s, main w argv s = (Raise (IndexError "list index out of range"), s)) /\
  invoke w argv = Process [] 1 (Some (IndexError "list index out of range")) [].
Proof.
  intros H Hlen.
  assert (Ha : nth_error argv 1 = None) by (apply nth_error_None; exact Hlen).
  split.
  - intros s. now apply main_no_argument.
  - now apply invoke_no_argument.
Qed.

Lemma no_argument_no_record_witness :
  import_browser_use Sample.installed = None /\
  (List.length [Sample.script_path] <= 1)%nat /\
  invoke Sample.installed [Sample.script_path] =
    Process [] 1 (Some (IndexError "list index out of range")) [].
Proof.
  split; [reflexivity |]. split; [simpl; lia |].
  apply (no_argument_no_record Sample.installed [Sample.script_path]);
    [reflexivity | simpl; lia].
Defined.

(** C10.  Whenever the body of the [try] raises, wherever it does, the
    handler returns having printed exactly one line, the record of lines
    62-67, whose keys are exactly [success], [error], [error_type] and
    [traceback]: it has no [task] key, also when line 48 had read the task
    before the failure. *)
Theorem failure_record_keys w config s e s' :
  main_body w config s = (Raise e, s') ->
  try_except (main_body w config) (main_handler w) s =
    (Ret tt, State (stdout s ++ [json_dumps (float_repr w) (failure_record w e)])
                   (calls s') (log_levels s')) /\
  dict_keys (failure_record w e) = ["success"; "error"; "error_type"; "traceback"] /\
  dict_get (failure_record w e) "task" = None.
Proof.
  intros E. split; [now apply try_block_raised | split; reflexivity].
Qed.

Lemma failure_record_keys_witness :
  let config := Sample.openrouter_config in
  let e := Sample.RuntimeError "browser closed" in
  dict_get config "task" = Some (PyStr "Open example.com") /\
  In (CallAgent (Agent (PyStr "Open example.com")
                       (ChatOpenAI (PyStr "m") (PyStr "k") openrouter_base_url temperature)
                       (Browser [])))
     (calls (snd (main_body Sample.agent_fails config init_state))) /\
  fst (try_except (main_body Sample.agent_fails config)
                  (main_handler Sample.agent_fails) init_state) = Ret tt /\
  stdout (snd (try_except (main_body Sample.agent_fails config)
                          (main_handler Sample.agent_fails) init_state)) =
    [json_dumps Sample.float_text (failure_record Sample.agent_fails e)] /\
  dict_get (failure_record Sample.agent_fails e) "task" = None.
Proof.
  intros config e.
  split; [reflexivity |]. split; [vm_compute; auto |].
  destruct (@failure_record_keys Sample.agent_fails config init_state e
              (snd (main_body Sample.agent_fails config init_state)))
    as (Htry & _ & Htask); [vm_compute; reflexivity |].
  rewrite Htry. simpl. auto.
Defined.

(** * More of the script *)

(** ** The body of the [try], step by step *)

(** When the configuration names no client, [make_llm] raises [llm_error]
    and touches nothing. *)
Lemma make_llm_none w config s :
  llm_of config = None -> make_llm w config s = (Raise (llm_error w config), s).
Proof.
  unfold make_llm, llm_of, llm_error.
  rewrite bind_getitem. destruct (dict_get config "llm") as [sec|] eqn:D1; [| reflexivity].
  rewrite bind_getitem. destruct (dict_get sec "provider") as [provider|] eqn:D2;
    [| reflexivity].
  destruct (eq_str provider "gemini") eqn:Eg; [| destruct (eq_str provider "openrouter") eqn:Eo];
    simpl orb; cbv iota.
  - rewrite bind_getitem, D1, bind_getitem.
    destruct (dict_get sec "model") as [model|] eqn:D4; [| reflexivity].
    rewrite bind_getitem, D1, bind_getitem.
    destruct (dict_get sec "api_key") as [api_key|] eqn:D6; [discriminate | reflexivity].
  - rewrite bind_getitem, D1, bind_getitem.
    destruct (dict_get sec "model") as [model|] eqn:D4; [| reflexivity].
    rewrite bind_getitem, D1, bind_getitem.
    destruct (dict_get sec "api_key") as [api_key|] eqn:D6; [discriminate | reflexivity].
  - reflexivity.
Qed.

(** The monadic body and its reading without the monad agree: same ending,
    same calls appended, the success line printed when it returns. *)
Lemma main_body_outcome w config s :
  main_body w config s =
    match body_outcome w config with
    | (inr (out, task), t) =>
        (Ret tt, State (stdout s ++ [json_dumps (float_repr w) (success_record out task)])
                       (calls s ++ t) (log_levels s))
    | (inl e, t) => (Raise e, State (stdout s) (calls s ++ t) (log_levels s))
    end.
Proof.
  destruct s as [o c lv]. unfold main_body, body_outcome.
  destruct (llm_of config) as [l|] eqn:Hc.
  2:{ erewrite bind_raises by (apply make_llm_none; exact Hc).
      simpl. rewrite app_nil_r. reflexivity. }
  destruct (make_llm_cases w config (State o c lv)) as [(l' & Hl' & E) | (e & Hl' & E)];
    [| congruence].
  assert (l' = l) by congruence. subst l'. clear Hl'.
  destruct (llm_of_dict _ Hc) as [items ->].
  unfold bind at 1. rewrite E. clear E.
  unfold new_llm, bind, record_call, raise_if. simpl.
  destruct (init_llm w l) as [e|]; simpl; [reflexivity |].
  unfold new_browser, bind, record_call, raise_if. simpl.
  change (match lookup "chrome_profile_path" items with
          | Some path => if truthy path then [("user_data_dir", path)] else []
          | None => []
          end) with (browser_kwargs_of (PyDict items)).
  assert (Hk : make_browser_kwargs (PyDict items) (State o (c ++ [CallLLM l]) lv) =
               (Ret (browser_kwargs_of (PyDict items)), State o (c ++ [CallLLM l]) lv))
    by apply make_browser_kwargs_dict.
  rewrite Hk. clear Hk. simpl.
  destruct (init_browser w (Browser (browser_kwargs_of (PyDict items)))) as [e|]; simpl.
  { rewrite <- app_assoc. reflexivity. }
  unfold getitem. simpl.
  destruct (lookup "task" items) as [task|]; simpl.
  2:{ rewrite <- app_assoc. reflexivity. }
  unfold new_agent, bind, record_call, raise_if. simpl.
  destruct (init_agent w _) as [e|]; simpl.
  { rewrite <- !app_assoc. reflexivity. }
  unfold run, bind, record_call, lift. simpl.
  destruct (agent_run w _) as [e|out]; simpl.
  { rewrite <- !app_assoc. reflexivity. }
  rewrite <- !app_assoc. reflexivity.
Qed.

(** An invocation whose argument parses ends as the body does. *)
Lemma invoke_outcome w argv arg config :
  import_browser_use w = None -> nth_error argv 1 = Some arg -> json_loads w arg = inr config ->
  invoke w argv =
    match body_outcome w config with
    | (inr (out, task), t) =>
        Process [json_dumps (float_repr w) (success_record out task)] 0 None t
    | (inl e, t) => Process [json_dumps (float_repr w) (failure_record w e)] 0 None t
    end.
Proof.
  intros H Ha Hl. unfold invoke. rewrite (script_installed w argv H).
  rewrite (main_parsed w argv logged_state Ha Hl).
  unfold try_except. rewrite main_body_outcome.
  destruct (body_outcome w config) as [[e | [out task]] t]; reflexivity.
Qed.

(** ** Runs that reach the agent *)

(** X1.  When the configuration names a client and a task, the three
    constructors return and the agent returns, the process prints the success
    record with the agent's result as [output] and the configuration's task
    as [task], exits with status 0, and has called the client, the browser
    session, the agent and its run, in that order and once each. *)
Theorem success_reported w argv arg config l task out :
  import_browser_use w = None ->
  nth_error argv 1 = Some arg ->
  json_loads w arg = inr config ->
  llm_of config = Some l ->
  dict_get config "task" = Some task ->
  init_llm w l = None ->
  init_browser w (Browser (browser_kwargs_of config)) = None ->
  init_agent w (Agent task l (Browser (browser_kwargs_of config))) = None ->
  agent_run w (Agent task l (Browser (browser_kwargs_of config))) = inr out ->
  invoke w argv =
    Process [json_dumps (float_repr w) (success_record out task)] 0 None
            (full_trace l (Browser (browser_kwargs_of config)) task).
Proof.
  intros H Ha Hl Hc Ht Hi Hb Hg Hr.
  rewrite (invoke_outcome w argv H Ha Hl). unfold body_outcome.
  rewrite Hc, Hi. cbv zeta. rewrite Hb, Ht, Hg, Hr. reflexivity.
Qed.

Lemma success_reported_witness :
  invoke Sample.installed [Sample.script_path; Sample.text_of Sample.gemini_profile_config] =
    Process [json_dumps Sample.float_text (success_record "done" (PyStr "x"))] 0 None
            (full_trace (ChatGoogle (PyStr "m") (PyStr "k") temperature)
                        (Browser [("user_data_dir", PyStr "/home/u/.config/chrome")])
                        (PyStr "x")).
Proof.
  apply (@success_reported Sample.installed _
           (Sample.text_of Sample.gemini_profile_config) Sample.gemini_profile_config
           (ChatGoogle (PyStr "m") (PyStr "k") temperature) (PyStr "x") "done");
    first [reflexivity | vm_compute; reflexivity].
Defined.





(** ** Configurations the body rejects *)

(** X4.  An argument that is valid JSON but not an object (an array, a
    string, a number, a boolean or null) is not a crash: line 21 raises
    [TypeError] inside the [try], the process prints its failure record,
    exits with status 0 and constructs nothing. *)
Theorem not_an_object_reported w argv arg config :
  import_browser_use w = None ->
  nth_error argv 1 = Some arg ->
  json_loads w arg = inr config ->
  (forall items, config <> PyDict items) ->
  invoke w argv =
    Process [json_dumps (float_repr w) (failure_record w (subscript_error config "llm"))]
            0 None [] /\
  exn_name (subscript_error config "llm") = "TypeError".
Proof.
  intros H Ha Hl Hn.
  rewrite (invoke_outcome w argv H Ha Hl). unfold body_outcome, llm_of, llm_error.
  destruct config; try (split; reflexivity).
  exfalso. exact (Hn items eq_refl).
Qed.

Lemma not_an_object_reported_witness :
  invoke Sample.installed [Sample.script_path; "[]"] =
    Process [json_dumps Sample.float_text
               (failure_record Sample.installed
                  (TypeError "list indices must be integers or slices, not str"))]
            0 None [].
Proof.
  refine (proj1 (@not_an_object_reported Sample.installed _ "[]" (PyList []) _ _ _ _));
    first [reflexivity | discriminate].
Defined.

(** X5.  A missing field of the [llm] section is reported by the subscript
    that fails first, and no constructor is called: [llm] itself, then
    [provider], then (for a supported provider) [model] before [api_key].
    On a dict the error is [KeyError] with the quoted key. *)
Theorem missing_llm_field_reported w argv arg config :
  import_browser_use w = None ->
  nth_error argv 1 = Some arg ->
  json_loads w arg = inr config ->
  let report e := Process [json_dumps (float_repr w) (failure_record w e)] 0 None [] in
  (dict_get config "llm" = None ->
     invoke w argv = report (subscript_error config "llm")) /\
  (forall section, dict_get config "llm" = Some section ->
     dict_get section "provider" = None ->
     invoke w argv = report (subscript_error section "provider")) /\
  (forall section provider, dict_get config "llm" = Some section ->
     dict_get section "provider" = Some provider ->
     provider = PyStr "gemini" \/ provider = PyStr "openrouter" ->
     (dict_get section "model" = None ->
        invoke w argv = report (subscript_error section "model")) /\
     (dict_get section "model" <> None -> dict_get section "api_key" = None ->
        invoke w argv = report (subscript_error section "api_key"))) /\
  (forall items key, subscript_error (PyDict items) key = KeyError key /\
                     exn_name (KeyError key) = "KeyError" /\
                     exn_str (KeyError key) = "'" ++ key ++ "'").
Proof.
  intros H Ha Hl report. rewrite (invoke_outcome w argv H Ha Hl).
  unfold body_outcome, llm_of, llm_error, report.
  split; [| split; [| split]].
  - intros ->. reflexivity.
  - intros section -> ->. reflexivity.
  - intros section provider -> -> Hp.
    assert (Hs : eq_str provider "gemini" || eq_str provider "openrouter" = true)
      by (destruct Hp as [-> | ->]; reflexivity).
    split.
    + intros ->. rewrite Hs.
      destruct (eq_str provider "gemini"), (eq_str provider "openrouter"); reflexivity.
    + intros Hm ->. rewrite Hs. destruct (dict_get section "model"); [| congruence].
      destruct (eq_str provider "gemini"), (eq_str provider "openrouter"); reflexivity.
  - intros items key. repeat split.
Qed.

Lemma missing_llm_field_reported_witness :
  let run config := invoke Failing.installed [Sample.script_path; Sample.text_of config] in
  let report e :=
    Process [json_dumps Sample.float_text (failure_record Failing.installed e)] 0 None [] in
  run Failing.no_llm_config = report (KeyError "llm") /\
  run Failing.no_provider_config = report (KeyError "provider") /\
  run Failing.no_model_config = report (KeyError "model") /\
  run Failing.no_api_key_config = report (KeyError "api_key").
Proof.
  intros run report. unfold run. split; [| split; [| split]].
  - refine (proj1 (@missing_llm_field_reported Failing.installed _
                     (Sample.text_of Failing.no_llm_config) Failing.no_llm_config _ _ _) _);
      first [reflexivity | vm_compute; reflexivity].
  - refine (proj1 (proj2 (@missing_llm_field_reported Failing.installed _
                     (Sample.text_of Failing.no_provider_config) Failing.no_provider_config
                     _ _ _))
              (PyDict [("model", PyStr "m"); ("api_key", PyStr "k")]) _ _);
      first [reflexivity | vm_compute; reflexivity].
  - refine (proj1 (proj1 (proj2 (proj2 (@missing_llm_field_reported Failing.installed _
                     (Sample.text_of Failing.no_model_config) Failing.no_model_config
                     _ _ _)))
              (PyDict [("provider", PyStr "gemini"); ("api_key", PyStr "k")])
              (PyStr "gemini") _ _ _) _);
      first [reflexivity | vm_compute; reflexivity | left; reflexivity].
  - refine (proj2 (proj1 (proj2 (proj2 (@missing_llm_field_reported Failing.installed _
                     (Sample.text_of Failing.no_api_key_config) Failing.no_api_key_config
                     _ _ _)))
              (PyDict [("provider", PyStr "openrouter"); ("model", PyStr "m")])
              (PyStr "openrouter") _ _ _) _ _);
      first [reflexivity | vm_compute; reflexivity | right; reflexivity | discriminate].
Defined.

(** ** How the process can end *)



(** X10.  Only [sys.argv[1]] is read: two invocations whose argument lists
    agree at index 1 end alike, whatever the script's path and whatever
    further arguments follow. *)
Theorem argv_rest_ignored w argv argv' :
  nth_error argv 1 = nth_error argv' 1 ->
  invoke w argv = invoke w argv'.
Proof.
  intros H. unfold invoke, script, main, argv_get. rewrite H. reflexivity.
Qed.

Lemma argv_rest_ignored_witness :
  invoke Sample.installed
    ["/tmp/other.py"; Sample.text_of Sample.bogus_config; "--verbose"; "extra"] =
  invoke Sample.installed [Sample.script_path; Sample.text_of Sample.bogus_config].
Proof.
  apply (@argv_rest_ignored Sample.installed
           ["/tmp/other.py"; Sample.text_of Sample.bogus_config; "--verbose"; "extra"]
           [Sample.script_path; Sample.text_of Sample.bogus_config]).
  reflexivity.
Defined.

(** X11.  Under any module name other than [__main__] (the file imported,
    not run) line 70 is not reached: with the package installed the module
    returns having printed nothing and called nothing, and the arguments are
    never read.  The import guard still runs: with the package missing, the
    module prints its record and exits with status 1. *)
Theorem imported_module_runs_no_task w name argv s :
  name <> "__main__" ->
  (import_browser_use w = None ->
   exists s', script w name argv s = (Ret tt, s') /\
              stdout s' = stdout s /\ calls s' = calls s) /\
  (forall e, import_browser_use w = Some e -> exn_isImportError e = true ->
   exists s', script w name argv s = (Exit 1, s') /\
              stdout s' = (stdout s ++ [json_dumps (float_repr w) (import_failure_record e)])%list /\
              calls s' = calls s).
Proof.
  intros Hn. apply String.eqb_neq in Hn.
  unfold script, import_guard, try_except_ImportError, bind. simpl. split.
  - intros H. rewrite H. simpl. rewrite Hn. eexists. split; [reflexivity |]. split; reflexivity.
  - intros e H Hi. rewrite H. simpl. rewrite Hi. simpl.
    eexists. split; [reflexivity |]. split; reflexivity.
Qed.

Lemma imported_module_runs_no_task_witness :
  exists s',
    script Sample.installed "browser_automation" [Sample.script_path] init_state = (Ret tt, s') /\
    stdout s' = [] /\ calls s' = [].
Proof.
  destruct (@imported_module_runs_no_task Sample.installed "browser_automation"
              [Sample.script_path] init_state) as [Hok _]; [discriminate |].
  exact (Hok eq_refl).
Defined.

(** X15.  When the import raises an [ImportError], the arguments play no
    part: whatever they are, the process prints the one record of line 14,
    whose [error] is [Package not installed: ] followed by the exception's
    text, exits with status 1 and calls nothing of the package. *)
Theorem import_error_reported w argv e :
  import_browser_use w = Some e ->
  exn_isImportError e = true ->
  invoke w argv = Process [json_dumps (float_repr w) (import_failure_record e)] 1 None [] /\
  dict_get (import_failure_record e) "error" =
    Some (PyStr ("Package not installed: " ++ exn_str e)).
Proof.
  intros H Hi. split; [now apply invoke_import_error | reflexivity].
Qed.

Lemma import_error_reported_witness :
  invoke Sample.not_installed [Sample.script_path; "{"] =
    Process [json_dumps Sample.float_text
               (import_failure_record
                  (Sample.ModuleNotFoundError "No module named 'browser_use'"))]
            1 None [].
Proof.
  refine (proj1 (@import_error_reported Sample.not_installed _ _ _ _)); reflexivity.
Defined.

(** ** What the calls and the line tell *)

(** X12.  The calls into [browser_use] come in one order only.  Either there
    is none, or the argument parsed to a configuration naming a client [l]
    and the trace is one of four: the client alone; the client and the
    browser session; these and the agent, built from the configuration's
    task, that client and that session; or all of these and the run of that
    same agent. *)
Theorem calls_in_order w argv :
  proc_calls (invoke w argv) = [] \/
  exists arg config l,
    nth_error argv 1 = Some arg /\ json_loads w arg = inr config /\
    llm_of config = Some l /\
    (proc_calls (invoke w argv) = [CallLLM l] \/
     proc_calls (invoke w argv) = [CallLLM l; CallBrowser (Browser (browser_kwargs_of config))] \/
     exists task,
       dict_get config "task" = Some task /\
       (proc_calls (invoke w argv) =
          [CallLLM l; CallBrowser (Browser (browser_kwargs_of config));
           CallAgent (Agent task l (Browser (browser_kwargs_of config)))] \/
        proc_calls (invoke w argv) =
          full_trace l (Browser (browser_kwargs_of config)) task)).
Proof.
  destruct (import_browser_use w) as [e|] eqn:H.
  { destruct (exn_isImportError e) eqn:Hi.
    - rewrite (invoke_import_error w argv H Hi). left; reflexivity.
    - rewrite (invoke_import_other w argv H Hi). left; reflexivity. }
  destruct (nth_error argv 1) as [arg|] eqn:Ha.
  2:{ rewrite (invoke_no_argument w argv H Ha). left; reflexivity. }
  destruct (json_loads w arg) as [e|config] eqn:Hl.
  { rewrite (invoke_not_json w argv H Ha Hl). left; reflexivity. }
  rewrite (invoke_outcome w argv H Ha Hl). unfold body_outcome.
  destruct (llm_of config) as [l|] eqn:Hc; [| left; reflexivity].
  right. exists arg, config, l.
  split; [reflexivity |]. split; [exact Hl |]. split; [exact Hc |].
  destruct (init_llm w l); [left; reflexivity |]. cbv zeta.
  destruct (init_browser w _); [right; left; reflexivity |].
  destruct (dict_get config "task") as [task|]; [| right; left; reflexivity].
  right; right. exists task. split; [reflexivity |].
  destruct (init_agent w _); [left; reflexivity |].
  destruct (agent_run w _); right; reflexivity.
Qed.

Lemma success_line_prefix float_repr out task :
  is_prefix (success_prefix true) (json_dumps float_repr (success_record out task)) = true.
Proof. reflexivity. Qed.

Lemma failure_line_prefix float_repr w e :
  is_prefix (success_prefix false) (json_dumps float_repr (failure_record w e)) = true /\
  is_prefix (success_prefix true) (json_dumps float_repr (failure_record w e)) = false.
Proof. split; reflexivity. Qed.

Lemma import_failure_line_prefix float_repr e :
  is_prefix (success_prefix false) (json_dumps float_repr (import_failure_record e)) = true.
Proof. reflexivity. Qed.

(** X13.  The line of a parsed invocation says [success: true] exactly when
    the whole run went through: the configuration names a client and a task,
    the three constructors returned and the agent returned; the line is then
    the success record of the agent's result and that task. *)
Theorem success_line_iff w argv arg config :
  import_browser_use w = None ->
  nth_error argv 1 = Some arg ->
  json_loads w arg = inr config ->
  exists line,
    proc_stdout (invoke w argv) = [line] /\
    (is_prefix (success_prefix true) line = true <->
     exists l task out,
       llm_of config = Some l /\ dict_get config "task" = Some task /\
       init_llm w l = None /\
       init_browser w (Browser (browser_kwargs_of config)) = None /\
       init_agent w (Agent task l (Browser (browser_kwargs_of config))) = None /\
       agent_run w (Agent task l (Browser (browser_kwargs_of config))) = inr out /\
       line = json_dumps (float_repr w) (success_record out task)).
Proof.
  intros H Ha Hl. rewrite (invoke_outcome w argv H Ha Hl). unfold body_outcome.
  assert (Hfail : forall e t,
    exists line,
      proc_stdout (Process [json_dumps (float_repr w) (failure_record w e)] 0 None t) = [line] /\
      (is_prefix (success_prefix true) line = true -> False) /\
      line = json_dumps (float_repr w) (failure_record w e)).
  { intros e t. eexists. split; [reflexivity |]. split; [| reflexivity].
    intros Hp. rewrite (proj2 (failure_line_prefix (float_repr w) w e)) in Hp. discriminate. }
  destruct (llm_of config) as [l|] eqn:Hc.
  2:{ destruct (Hfail (llm_error w config) []) as (line & Hout & Hno & _).
      exists line. split; [exact Hout |]. split; [intros Hp; contradiction |].
      intros (l & task & out & Hc' & _). discriminate. }
  destruct (init_llm w l) as [e|] eqn:Hi.
  { destruct (Hfail e [CallLLM l]) as (line & Hout & Hno & _).
    exists line. split; [exact Hout |]. split; [intros Hp; contradiction |].
    intros (l' & task & out & Hc' & _ & Hi' & _). congruence. }
  cbv zeta. destruct (init_browser w _) as [e|] eqn:Hb.
  { destruct (Hfail e [CallLLM l; CallBrowser (Browser (browser_kwargs_of config))])
      as (line & Hout & Hno & _).
    exists line. split; [exact Hout |]. split; [intros Hp; contradiction |].
    intros (l' & task & out & Hc' & _ & _ & Hb' & _). congruence. }
  destruct (dict_get config "task") as [task|] eqn:Ht.
  2:{ destruct (Hfail (subscript_error config "task")
                  [CallLLM l; CallBrowser (Browser (browser_kwargs_of config))])
        as (line & Hout & Hno & _).
      exists line. split; [exact Hout |]. split; [intros Hp; contradiction |].
      intros (l' & task & out & _ & Ht' & _). discriminate. }
  destruct (init_agent w _) as [e|] eqn:Hg.
  { match goal with |- context [Process _ 0 None ?t] =>
      destruct (Hfail e t) as (line & Hout & Hno & _) end.
    exists line. split; [exact Hout |]. split; [intros Hp; contradiction |].
    intros (l' & task' & out & Hc' & Ht' & _ & _ & Hg' & _).
    assert (l' = l) by congruence. assert (task' = task) by congruence. subst. congruence. }
  destruct (agent_run w _) as [e|out] eqn:Hr.
  { match goal with |- context [Process _ 0 None ?t] =>
      destruct (Hfail e t) as (line & Hout & Hno & _) end.
    exists line. split; [exact Hout |]. split; [intros Hp; contradiction |].
    intros (l' & task' & out & Hc' & Ht' & _ & _ & _ & Hr' & _).
    assert (l' = l) by congruence. assert (task' = task) by congruence. subst. congruence. }
  eexists. split; [reflexivity |]. split.
  - intros _. exists l, task, out. repeat (split; [assumption || reflexivity |]). reflexivity.
  - intros _. apply success_line_prefix.
Qed.

Lemma success_line_iff_witness :
  exists line,
    proc_stdout (invoke Sample.installed
                   [Sample.script_path; Sample.text_of Sample.openrouter_config]) = [line] /\
    is_prefix (success_prefix true) line = true.
Proof.
  destruct (@success_line_iff Sample.installed
              [Sample.script_path; Sample.text_of Sample.openrouter_config]
              (Sample.text_of Sample.openrouter_config) Sample.openrouter_config)
    as (line & Hout & Hiff); [reflexivity | reflexivity | vm_compute; reflexivity |].
  exists line. split; [exact Hout |].
  vm_compute in Hout. injection Hout as <-. vm_compute. reflexivity.
Defined.

(** X14.  Every line the script writes begins with the key [success] and its
    value, so a reader can tell the two kinds of record apart from the first
    characters: a line begins with [success: true] or with [success: false],
    and never with both. *)
Theorem stdout_lines_start_with_success w argv line :
  In line (proc_stdout (invoke w argv)) ->
  (is_prefix (success_prefix true) line = true /\
   is_prefix (success_prefix false) line = false) \/
  (is_prefix (success_prefix false) line = true /\
   is_prefix (success_prefix true) line = false).
Proof.
  intros Hin.
  destruct (import_browser_use w) as [e|] eqn:H.
  { destruct (exn_isImportError e) eqn:Hi.
    - rewrite (invoke_import_error w argv H Hi) in Hin. destruct Hin as [<- | []].
      right. split; reflexivity.
    - rewrite (invoke_import_other w argv H Hi) in Hin. contradiction. }
  destruct (nth_error argv 1) as [arg|] eqn:Ha.
  2:{ rewrite (invoke_no_argument w argv H Ha) in Hin. contradiction. }
  destruct (json_loads w arg) as [e|config] eqn:Hl.
  { rewrite (invoke_not_json w argv H Ha Hl) in Hin. contradiction. }
  rewrite (invoke_outcome w argv H Ha Hl) in Hin.
  destruct (body_outcome w config) as [[e | [out task]] t]; destruct Hin as [<- | []].
  - right. split; reflexivity.
  - left. split; reflexivity.
Qed.

Lemma stdout_lines_start_with_success_witness :
  let line := json_dumps Sample.float_text
                (failure_record Sample.installed (ValueError "Unsupported provider: bogus")) in
  In line (proc_stdout (invoke Sample.installed
                          [Sample.script_path; Sample.text_of Sample.bogus_config])) /\
  is_prefix (success_prefix false) line = true.
Proof.
  intros line.
  assert (Hin : In line (proc_stdout (invoke Sample.installed
                           [Sample.script_path; Sample.text_of Sample.bogus_config])))
    by (vm_compute; auto).
  split; [exact Hin |].
  destruct (@stdout_lines_start_with_success Sample.installed _ line Hin)
    as [[Ht Hf] | [Hf _]]; [| exact Hf].
  vm_compute in Hf. discriminate.
Defined.

Lemma body_outcome_fields w items1 items2 :
  lookup "llm" items1 = lookup "llm" items2 ->
  lookup "task" items1 = lookup "task" items2 ->
  lookup "chrome_profile_path" items1 = lookup "chrome_profile_path" items2 ->
  body_outcome w (PyDict items1) = body_outcome w (PyDict items2).
Proof.
  intros Hl Ht Hp.
  unfold body_outcome, llm_of, llm_error, browser_kwargs_of. simpl.
  rewrite Hl, Ht, Hp. reflexivity.
Qed.

(** X16.  Of a configuration object the script reads three fields only:
    [llm], [task] and [chrome_profile_path].  Two invocations whose
    configurations agree on these three end alike: other fields, and the
    order of the fields, make no difference. *)
Theorem unread_fields_ignored w argv1 argv2 arg1 arg2 items1 items2 :
  nth_error argv1 1 = Some arg1 -> json_loads w arg1 = inr (PyDict items1) ->
  nth_error argv2 1 = Some arg2 -> json_loads w arg2 = inr (PyDict items2) ->
  lookup "llm" items1 = lookup "llm" items2 ->
  lookup "task" items1 = lookup "task" items2 ->
  lookup "chrome_profile_path" items1 = lookup "chrome_profile_path" items2 ->
  invoke w argv1 = invoke w argv2.
Proof.
  intros Ha1 Hl1 Ha2 Hl2 Hl Ht Hp.
  destruct (import_browser_use w) as [e|] eqn:H.
  { destruct (exn_isImportError e) eqn:Hi.
    - now rewrite !(invoke_import_error w _ H Hi).
    - now rewrite !(invoke_import_other w _ H Hi). }
  rewrite (invoke_outcome w argv1 H Ha1 Hl1), (invoke_outcome w argv2 H Ha2 Hl2).
  rewrite (body_outcome_fields w items1 items2 Hl Ht Hp). reflexivity.
Qed.

Lemma unread_fields_ignored_witness :
  invoke Failing.installed [Sample.script_path; Sample.text_of Failing.bogus_config_more] =
  invoke Failing.installed [Sample.script_path; Sample.text_of Sample.bogus_config].
Proof.
  match goal with |- invoke _ ?a1 = invoke _ ?a2 =>
    refine (@unread_fields_ignored Failing.installed a1 a2 _ _ _ _ _ _ _ _ _ _ _)
  end; first [reflexivity | vm_compute; reflexivity].
Defined.
